(** * streamlit_app.py: population dashboard, loader and metrics

    A shallow embedding of [streamlit_app.py].  The script is a straight
    line of pandas calls and Streamlit widgets, with no functions of its
    own, so the definitions below are named after the script's variables
    ([mask], [filtered_df], [initial_val], [pct], [pct_series], ...) and
    after the statement blocks they embed.

    Conventions of the embedding.
    - A [float] is an IEEE 754 binary64 value ([spec_float], precision 53,
      infinities at exponent 1024); NaN is pandas' missing value.  A Python
      [int] is a [Z].
    - A label is a [string] holding the bytes of its UTF-8 text.
    - A frame is a header and a list of rows.  The [Year] column is kept
      apart from the other columns: the file's year column is read by
      [read_csv] as integers, with blanks as NaN, hence [option Z].  The
      other columns hold floats once [to_numeric] has run (an all-integer
      column is held by pandas as int64, which agrees with binary64 on
      every value below 2^53).
    - Of what the script puts on the page, the embedding keeps the
      messages, the metrics and the charts of lines 50-135, as a list of
      [element]s; titles and widgets are left out, and the values the
      widgets return ([start_year], [end_year], [target],
      [compare_targets]) are arguments.  A Python exception ends the run
      and keeps the elements shown so far. *)

From Stdlib Require Import ZArith List String Ascii Bool Lia Permutation Sorted.
From Stdlib Require Import Floats.SpecFloat.
Import ListNotations.

Local Open Scope string_scope.
Local Open Scope list_scope.
Local Open Scope Z_scope.

(* ================================================================== *)
(** * Python values *)

Inductive exception : Type :=
| KeyError (key : string)   (* a column label that the frame does not have *)
| ValueError                (* int(nan) *)
| OverflowError             (* int(inf), int / int too large for a float *)
| ZeroDivisionError
| IndexError.               (* s.iloc[0] on an empty Series *)

Inductive result (A : Type) : Type :=
| Ok (a : A)
| Raise (e : exception).
Arguments Ok {A} a.
Arguments Raise {A} e.

Definition rbind {A B : Type} (r : result A) (k : A -> result B) : result B :=
  match r with
  | Ok a => k a
  | Raise e => Raise e
  end.

Notation "x <- r ;; k" := (rbind r (fun x => k))
  (at level 61, r at next level, right associativity).

Fixpoint mapM {A B : Type} (f : A -> result B) (l : list A) : result (list B) :=
  match l with
  | [] => Ok []
  | x :: l' => y <- f x ;; ys <- mapM f l' ;; Ok (y :: ys)
  end.

(** ** binary64 *)

Definition prec : Z := 53.
Definition emax : Z := 1024.

Definition float : Type := spec_float.
Definition nan : float := S754_nan.
Definition fdiv : float -> float -> float := SFdiv prec emax.
Definition fmul : float -> float -> float := SFmul prec emax.

(** [float(z)]: the binary64 nearest to [z]. *)
Definition float_of_Z (z : Z) : float := binary_normalize prec emax z 0 false.

(** [int(x)] of a Python float: truncation toward zero; NaN and the
    infinities have no integer. *)
Definition py_int (x : float) : result Z :=
  match x with
  | S754_nan => Raise ValueError
  | S754_infinity _ => Raise OverflowError
  | S754_zero _ => Ok 0
  | S754_finite s m e => Ok (cond_Zopp s (Z.shiftl (Zpos m) e))
  end.

(** A nonzero integer as an exact, not normalised, binary float. *)
Definition exact_of_Z (z : Z) : float :=
  match z with
  | Z0 => S754_zero false
  | Zpos p => S754_finite false p 0
  | Zneg p => S754_finite true p 0
  end.

(** [a / b] on Python ints: the correctly rounded quotient. *)
Definition int_truediv (a b : Z) : result float :=
  if b =? 0 then Raise ZeroDivisionError
  else if a =? 0 then Ok (S754_zero (b <? 0))
  else match fdiv (exact_of_Z a) (exact_of_Z b) with
       | S754_infinity _ => Raise OverflowError
       | q => Ok q
       end.

(** Nearest integer to [n / d], ties to even ([0 <= n], [0 < d]). *)
Definition div_half_even (n d : Z) : Z :=
  let q := n / d in
  let r := n mod d in
  match 2 * r ?= d with
  | Lt => q
  | Gt => q + 1
  | Eq => if Z.even q then q else q + 1
  end.

(** [round(x, 2)]: the exact value of [x] is rounded to two decimals,
    ties to even, and the decimal is read back as the nearest binary64. *)
Definition py_round2 (x : float) : float :=
  match x with
  | S754_finite s m e =>
      let k := match e with
               | Zneg p => div_half_even (Zpos m * 100) (2 ^ Zpos p)
               | _ => Z.shiftl (Zpos m) e * 100
               end in
      match k with
      | Zpos p => fdiv (S754_finite s p 0) (exact_of_Z 100)
      | _ => S754_zero s
      end
  | _ => x
  end.

(** ** str *)

(** A label is held as the bytes of its UTF-8 text, so a character is
    one to four bytes. *)
Definition byte (a : ascii) : N := N_of_ascii a.

(** [str.isspace] of one character, given by its bytes: U+0009-000D,
    U+001C-0020, U+0085, U+00A0, U+1680, U+2000-200A, U+2028, U+2029,
    U+202F, U+205F and U+3000. *)
Definition is_space (c : string) : bool :=
  match c with
  | String a EmptyString =>
      ((9 <=? byte a) && (byte a <=? 13) || (28 <=? byte a) && (byte a <=? 32))%N
  | String a (String b EmptyString) =>
      ((byte a =? 194) && ((byte b =? 133) || (byte b =? 160)))%N
  | String a (String b (String c EmptyString)) =>
      ((byte a =? 225) && (byte b =? 154) && (byte c =? 128)
       || (byte a =? 226) && (byte b =? 128)
          && ((128 <=? byte c) && (byte c <=? 138)
              || (byte c =? 168) || (byte c =? 169) || (byte c =? 175))
       || (byte a =? 226) && (byte b =? 129) && (byte c =? 159)
       || (byte a =? 227) && (byte b =? 128) && (byte c =? 128))%N
  | _ => false
  end.

(** [str.lstrip]: whitespace characters are taken off the front, one
    character (one, two or three bytes) at a time. *)
Fixpoint lstrip (s : string) : string :=
  match s with
  | EmptyString => EmptyString
  | String a s1 =>
      if is_space (String a EmptyString) then lstrip s1
      else match s1 with
           | EmptyString => s
           | String b s2 =>
               if is_space (String a (String b EmptyString)) then lstrip s2
               else match s2 with
                    | EmptyString => s
                    | String c s3 =>
                        if is_space (String a (String b (String c EmptyString)))
                        then lstrip s3 else s
                    end
           end
  end.

(** [str.rstrip], from the right: what is left of the tail, with one more
    byte in front, is dropped when it is a whitespace character. *)
Fixpoint rstrip (s : string) : string :=
  match s with
  | EmptyString => EmptyString
  | String a s' =>
      if is_space (String a (rstrip s')) then EmptyString
      else String a (rstrip s')
  end.

Definition strip (s : string) : string := rstrip (lstrip s).

(* ================================================================== *)
(** * Frames *)

Record Row (A : Type) : Type := mkRow {
  Year : option Z;      (* None: NaN *)
  cells : list A        (* one cell per column other than Year *)
}.
Arguments mkRow {A} Year cells.
Arguments Year {A} r.
Arguments cells {A} r.

Record Frame (A : Type) : Type := mkFrame {
  columns : list string;   (* the labels of the columns other than Year *)
  rows : list (Row A)
}.
Arguments mkFrame {A} columns rows.
Arguments columns {A} f.
Arguments rows {A} f.

(** What [read_csv] leaves in a cell: a number (NaN for a blank) or,
    in a column it could not read as numbers, the text of the cell. *)
Inductive pyobj : Type :=
| PNum (x : float)
| PStr (s : string).

Definition DataFrame : Type := Frame float.

(** Boolean indexing: [l[mask]]. *)
Fixpoint select {A : Type} (mask : list bool) (l : list A) : list A :=
  match mask, l with
  | b :: mask', x :: l' => if b then x :: select mask' l' else select mask' l'
  | _, _ => []
  end.

Fixpoint index_of (c : string) (cols : list string) : option nat :=
  match cols with
  | [] => None
  | h :: t => if String.eqb c h then Some O
              else match index_of c t with
                   | Some i => Some (S i)
                   | None => None
                   end
  end.

(** [c in df.columns]. *)
Definition has_column {A : Type} (df : Frame A) (c : string) : bool :=
  existsb (String.eqb c) (columns df).

Definition cell (i : nat) (r : Row float) : float := nth i (cells r) nan.

(** [df[c]] for a column other than Year. *)
Definition getitem (df : DataFrame) (c : string) : result (list float) :=
  match index_of c (columns df) with
  | Some i => Ok (map (cell i) (rows df))
  | None => Raise (KeyError c)
  end.

(** [df["Year"]]. *)
Definition Years {A : Type} (df : Frame A) : list (option Z) := map Year (rows df).

(** Comparisons of the Year Series with an int; NaN compares false. *)
Definition year_ge (k : Z) (y : option Z) : bool :=
  match y with Some v => k <=? v | None => false end.
Definition year_le (k : Z) (y : option Z) : bool :=
  match y with Some v => v <=? k | None => false end.
Definition year_eq (k : Z) (y : option Z) : bool :=
  match y with Some v => v =? k | None => false end.

(** [a & b] on boolean Series. *)
Definition series_and (a b : list bool) : list bool :=
  map (fun p => fst p && snd p) (combine a b).

(** [df.loc[mask]]. *)
Definition loc {A : Type} (df : Frame A) (m : list bool) : Frame A :=
  mkFrame (columns df) (select m (rows df)).

(** [df.loc[mask, c]]. *)
Definition loc_col (df : DataFrame) (m : list bool) (c : string) : result (list float) :=
  s <- getitem df c ;; Ok (select m s).

(** [df.empty]: the Year column is always there, so only the rows count. *)
Definition empty {A : Type} (df : Frame A) : bool :=
  match rows df with
  | [] => true
  | _ => false
  end.

Definition series_empty {A : Type} (s : list A) : bool :=
  match s with
  | [] => true
  | _ => false
  end.

(** [s.iloc[0]]. *)
Definition iloc0 {A : Type} (s : list A) : result A :=
  match s with
  | x :: _ => Ok x
  | [] => Raise IndexError
  end.

(** [s.min()], [s.max()]: NaN is skipped; NaN when nothing is left. *)
Definition skipna (f : Z -> Z -> Z) (acc y : option Z) : option Z :=
  match acc, y with
  | Some a, Some b => Some (f a b)
  | None, _ => y
  | _, None => acc
  end.
Definition series_min (ys : list (option Z)) : option Z := fold_left (skipna Z.min) ys None.
Definition series_max (ys : list (option Z)) : option Z := fold_left (skipna Z.max) ys None.

(** [int(y)] of an entry of the Year column. *)
Definition int_of_year (y : option Z) : result Z :=
  match y with
  | Some v => Ok v
  | None => Raise ValueError
  end.

(** [a / b] and [a * k] on float Series of one frame (same index). *)
Definition series_div (a b : list float) : list float :=
  map (fun p => fdiv (fst p) (snd p)) (combine a b).
Definition series_mul (a : list float) (k : float) : list float :=
  map (fun x => fmul x k) a.

(** [df.sort_values("Year")]: ascending, NaN last.  Rows with equal years
    keep their relative order here; pandas leaves that order open. *)
Definition year_leb (a b : option Z) : bool :=
  match a, b with
  | Some x, Some y => x <=? y
  | _, None => true
  | None, Some _ => false
  end.

Fixpoint insert_row {A : Type} (r : Row A) (l : list (Row A)) : list (Row A) :=
  match l with
  | [] => [r]
  | h :: t => if year_leb (Year r) (Year h) then r :: l else h :: insert_row r t
  end.

Fixpoint sort_rows {A : Type} (l : list (Row A)) : list (Row A) :=
  match l with
  | [] => []
  | h :: t => insert_row h (sort_rows t)
  end.

Definition sort_values {A : Type} (df : Frame A) : Frame A :=
  mkFrame (columns df) (sort_rows (rows df)).

(* ================================================================== *)
(** * Load and clean (lines 9-19) *)

Section Loader.

(** The number parser of [pd.to_numeric]: the float a text stands for,
    or nothing.  It belongs to pandas, not to the script. *)
Variable parse_number : string -> option float.

(** Line 10: [df.loc[:, ~df.columns.str.contains(r"^Unnamed", na=False)]]. *)
Definition drop_unnamed (df : Frame pyobj) : Frame pyobj :=
  let keep := map (fun c => negb (String.prefix "Unnamed" c)) (columns df) in
  mkFrame (select keep (columns df))
          (map (fun r => mkRow (Year r) (select keep (cells r))) (rows df)).

(** Line 11: [df.columns = df.columns.str.strip()]. *)
Definition strip_columns (df : Frame pyobj) : Frame pyobj :=
  mkFrame (map strip (columns df)) (rows df).

(** [pd.to_numeric(_, errors="coerce")] on one cell. *)
Definition to_numeric (o : pyobj) : float :=
  match o with
  | PNum x => x
  | PStr s => match parse_number s with
              | Some x => x
              | None => nan
              end
  end.

(** Line 14: every column but Year. *)
Definition num_cols (df : Frame pyobj) : list string := columns df.

(** Lines 15-16: the loop over [num_cols]. *)
Definition coerce_numeric (df : Frame pyobj) : DataFrame :=
  mkFrame (num_cols df)
          (map (fun r => mkRow (Year r) (map to_numeric (cells r))) (rows df)).

(** Lines 9-19, from what [read_csv] returned; [reset_index] renumbers
    the rows, which a list does by itself. *)
Definition load (raw : Frame pyobj) : DataFrame :=
  sort_values (coerce_numeric (strip_columns (drop_unnamed raw))).

End Loader.

(* ================================================================== *)
(** * The page *)

Record line : Type := mkLine {
  label : option string;
  ydata : list float
}.

Inductive element : Type :=
| st_error (msg : string)
| st_warning (msg : string)
| st_info (msg : string)
| st_metric (name : string) (year : Z) (value : Z) (delta : option float)
| st_pyplot (xdata : list (option Z)) (lines : list line).

(** The messages of the script, under the names the specification gives
    to the failures they report. *)
Definition InvalidRangeError : string := "Dates don't work. Start year must be <= end year.".
Definition EmptyRangeError : string := "No data available for the selected year range.".
Definition YearNotFoundError : string := "Selected year(s) not found in the data.".
Definition MissingTotalError : string := "Cannot compute percentages: 'Total' column is missing.".
Definition TotalNotCharted : string := "Percentage chart not shown for 'Total'.".
Definition NothingSelected : string := "Select at least one series to compare.".

(** A run of a block of the script: the elements it put on the page and
    how it ended. *)
Definition run (A : Type) : Type := (list element * result A)%type.

Definition ret {A : Type} (a : A) : run A := ([], Ok a).
Definition emit (e : element) : run unit := ([e], Ok tt).
Definition lift {A : Type} (r : result A) : run A := ([], r).

Definition bind {A B : Type} (m : run A) (k : A -> run B) : run B :=
  match m with
  | (out, Ok a) => let (out', r) := k a in (out ++ out', r)
  | (out, Raise e) => (out, Raise e)
  end.

Notation "x <~ m ;; k" := (bind m (fun x => k))
  (at level 61, m at next level, right associativity).
Notation "m ;;; k" := (bind m (fun _ => k))
  (at level 61, right associativity).

(* ================================================================== *)
(** * Metrics (lines 27-135) *)

(** Lines 27-28. *)
Definition min_year (df : DataFrame) : result Z := int_of_year (series_min (Years df)).
Definition max_year (df : DataFrame) : result Z := int_of_year (series_max (Years df)).

(** Line 53. *)
Definition mask (df : DataFrame) (start_year end_year : Z) : list bool :=
  series_and (map (year_ge start_year) (Years df)) (map (year_le end_year) (Years df)).

(** Line 54. *)
Definition filtered_df (df : DataFrame) (start_year end_year : Z) : DataFrame :=
  loc df (mask df start_year end_year).

(** Lines 50-57: the two checks in front of the tabs. *)
Definition validate_and_filter (df : DataFrame) (start_year end_year : Z)
  : string + DataFrame :=
  if start_year >? end_year then inl InvalidRangeError
  else let fdf := filtered_df df start_year end_year in
       if empty fdf then inl EmptyRangeError else inr fdf.

(** Lines 68-69. *)
Definition initial_val (df : DataFrame) (start_year : Z) (target : string)
  : result (list float) :=
  loc_col df (map (year_eq start_year) (Years df)) target.
Definition final_val (df : DataFrame) (end_year : Z) (target : string)
  : result (list float) :=
  loc_col df (map (year_eq end_year) (Years df)) target.

(** Line 76; [100] becomes [100.0] under [*]. *)
Definition pct (initial final : Z) : result float :=
  if negb (initial =? 0)
  then q <- int_truediv (final - initial) initial ;;
       Ok (py_round2 (fmul q (float_of_Z 100)))
  else Ok (S754_zero false).

(** Lines 68-78. *)
Definition change_metrics (df : DataFrame) (start_year end_year : Z) (target : string)
  : run unit :=
  iv <~ lift (initial_val df start_year target) ;;
  fv <~ lift (final_val df end_year target) ;;
  if series_empty iv || series_empty fv then emit (st_error YearNotFoundError)
  else
    initial <~ lift (x <- iloc0 iv ;; py_int x) ;;
    final <~ lift (x <- iloc0 fv ;; py_int x) ;;
    p <~ lift (pct initial final) ;;
    emit (st_metric target start_year initial None) ;;;
    emit (st_metric target end_year final (Some p)).

(** Lines 90 and 124: [(filtered_df[c] / filtered_df["Total"]) * 100.0]. *)
Definition pct_series (fdf : DataFrame) (c : string) : result (list float) :=
  a <- getitem fdf c ;;
  t <- getitem fdf "Total" ;;
  Ok (series_mul (series_div a t) (float_of_Z 100)).

(** Lines 62-99. *)
Definition tab1 (df fdf : DataFrame) (start_year end_year : Z) (target : string)
  : run unit :=
  change_metrics df start_year end_year target ;;;
  y <~ lift (getitem fdf target) ;;
  emit (st_pyplot (Years fdf) [mkLine None y]) ;;;
  if has_column fdf "Total" && negb (String.eqb target "Total") then
    p <~ lift (pct_series fdf target) ;;
    emit (st_pyplot (Years fdf) [mkLine None p])
  else if String.eqb target "Total" then emit (st_info TotalNotCharted)
  else ret tt.

(** Lines 106-107: what the multiselect offers and preselects. *)
Definition compare_options (df : DataFrame) : list string :=
  filter (fun c => negb (String.eqb c "Year" || String.eqb c "Total")) (columns df).
Definition default_sel (df : DataFrame) (target : string) : list string :=
  if existsb (String.eqb target) (compare_options df) then [target]
  else firstn 1 (compare_options df).

(** Lines 112-118: one labelled line per selected column. *)
Definition absolute_lines (fdf : DataFrame) (compare_targets : list string)
  : result (list line) :=
  mapM (fun each => y <- getitem fdf each ;; Ok (mkLine (Some each) y)) compare_targets.

(** Lines 122-131. *)
Definition percent_lines (fdf : DataFrame) (compare_targets : list string)
  : result (list line) :=
  mapM (fun each => p <- pct_series fdf each ;; Ok (mkLine (Some each) p)) compare_targets.

(** Lines 110-135. *)
Definition tab2 (fdf : DataFrame) (compare_targets : list string) : run unit :=
  match compare_targets with
  | [] => emit (st_info NothingSelected)
  | _ =>
      ls <~ lift (absolute_lines fdf compare_targets) ;;
      emit (st_pyplot (Years fdf) ls) ;;;
      if has_column fdf "Total" then
        ps <~ lift (percent_lines fdf compare_targets) ;;
        emit (st_pyplot (Years fdf) ps)
      else emit (st_warning MissingTotalError)
  end.

(** Lines 50-135. *)
Definition analyze (df : DataFrame) (start_year end_year : Z) (target : string)
           (compare_targets : list string) : run unit :=
  match validate_and_filter df start_year end_year with
  | inl msg => emit (st_error msg)
  | inr fdf =>
      tab1 df fdf start_year end_year target ;;;
      tab2 fdf compare_targets
  end.

(** Lines 27-28 followed by lines 50-135, for the values the widgets of
    lines 30-47 returned.  The widget calls themselves are Streamlit's
    and are not part of this definition: a slider can refuse its bounds
    (it does when [min_year] equals [max_year]), and then the run ends
    at line 35, before line 50. *)
Definition script (df : DataFrame) (start_year end_year : Z) (target : string)
           (compare_targets : list string) : run unit :=
  _ <~ lift (min_year df) ;;
  _ <~ lift (max_year df) ;;
  analyze df start_year end_year target compare_targets.

(* ================================================================== *)
(** * Notions used in the statements *)

(** A row whose Year lies in the closed range. *)
Definition in_range (start_year end_year : Z) (r : Row float) : bool :=
  match Year r with
  | Some y => (start_year <=? y) && (y <=? end_year)
  | None => false
  end.

(** A row of the given year. *)
Definition at_year (y : Z) (r : Row float) : bool := year_eq y (Year r).

(** Years in ascending order, NaN after every number. *)
Definition year_order {A : Type} (r1 r2 : Row A) : Prop :=
  match Year r1, Year r2 with
  | Some x, Some y => x <= y
  | _, None => True
  | None, Some _ => False
  end.

(* ================================================================== *)
(** * Sample data *)

(** A parser for unsigned decimal integers, enough for the examples. *)
Definition digit_of (c : ascii) : option Z :=
  let n := nat_of_ascii c in
  if Nat.leb 48 n && Nat.leb n 57 then Some (Z.of_nat (n - 48)) else None.

Fixpoint parse_digits (acc : Z) (s : string) : option Z :=
  match s with
  | EmptyString => Some acc
  | String c s' => match digit_of c with
                   | Some d => parse_digits (10 * acc + d) s'
                   | None => None
                   end
  end.

Definition parse_decimal (s : string) : option float :=
  match s with
  | EmptyString => None
  | _ => match parse_digits 0 s with
         | Some z => Some (float_of_Z z)
         | None => None
         end
  end.

Definition F (z : Z) : float := float_of_Z z.

(** The two rows of the specification's example. *)
Definition ca_sample : DataFrame :=
  mkFrame ["Total"; "Black"]
          [ mkRow (Some 2015) [F 39144818; F 2200000];
            mkRow (Some 2020) [F 39368078; F 2184000] ].

(** The same file with a cell that is no number in the Black column;
    [read_csv] then keeps that whole column as text. *)
Definition raw_with_text : Frame pyobj :=
  mkFrame ["Total"; "Black"]
          [ mkRow (Some 2015) [PNum (F 39144818); PStr "abc"];
            mkRow (Some 2020) [PNum (F 39368078); PStr "2184000"] ].

(** A file with two lines for 2015, out of order, and an index column. *)
Definition raw_repeated_year : Frame pyobj :=
  mkFrame ["Unnamed: 0"; " Total "; "Black"]
          [ mkRow (Some 2020) [PNum (F 0); PNum (F 300); PNum (F 30)];
            mkRow (Some 2015) [PNum (F 1); PNum (F 100); PNum (F 10)];
            mkRow (Some 2015) [PNum (F 2); PNum (F 200); PNum (F 20)] ].

(** A dataset without a Total column. *)
Definition no_total_sample : DataFrame :=
  mkFrame ["Black"; "Asian"]
          [ mkRow (Some 2015) [F 2200000; F 5500000];
            mkRow (Some 2020) [F 2184000; F 5800000] ].

(** A header and no line below it. *)
Definition empty_sample : DataFrame := mkFrame ["Total"; "Black"] [].

(* ================================================================== *)
(** * The widgets' defaults (lines 35-45) *)

(** Lines 35 and 39: the values the two sliders start from; both
    sliders run from [min_year] to [max_year]. *)
Definition default_start (df : DataFrame) : result Z :=
  lo <- min_year df ;; Ok (Z.max lo 2017).
Definition default_end (df : DataFrame) : result Z := max_year df.

(** Line 43. *)
Definition selectable_single (df : DataFrame) : list string :=
  filter (fun c => negb (String.eqb c "Year")) (columns df).

(** [l.index(c)]. *)
Definition list_index (c : string) (l : list string) : result nat :=
  match index_of c l with
  | Some i => Ok i
  | None => Raise ValueError
  end.

(** Line 44. *)
Definition default_idx (df : DataFrame) : result nat :=
  if existsb (String.eqb "Total") (selectable_single df)
  then list_index "Total" (selectable_single df)
  else Ok O.

(* ================================================================== *)
(** * More notions and samples for the statements *)

(** Every row has one cell per column. *)
Definition aligned {A : Type} (df : Frame A) : Prop :=
  Forall (fun r => List.length (cells r) = List.length (columns df)) (rows df).

Definition has_year {A : Type} (r : Row A) : bool :=
  match Year r with
  | Some _ => true
  | None => false
  end.

(** The text starts with a whitespace character. *)
Definition head_space (s : string) : bool :=
  match s with
  | String a s1 =>
      is_space (String a EmptyString)
      || match s1 with
         | String b s2 =>
             is_space (String a (String b EmptyString))
             || match s2 with
                | String c _ => is_space (String a (String b (String c EmptyString)))
                | EmptyString => false
                end
         | EmptyString => false
         end
  | EmptyString => false
  end.

(** A chart line has one point per x value. *)
Definition plottable (xdata : list (option Z)) (l : line) : Prop :=
  List.length (ydata l) = List.length xdata.

(** Neither a NaN nor an infinity nor a zero. *)
Definition finite_nonzero (x : float) : Prop :=
  match x with
  | S754_finite _ _ _ => True
  | _ => False
  end.

Definition is_zero (x : float) : Prop :=
  match x with
  | S754_zero _ => True
  | _ => False
  end.

Definition sign_of (x : float) : bool :=
  match x with
  | S754_zero s | S754_infinity s | S754_finite s _ _ => s
  | S754_nan => false
  end.

(** The example as [read_csv] returns it, and the same lines reversed. *)
Definition raw_sample : Frame pyobj :=
  mkFrame [" Total"; "Black "]
          [ mkRow (Some 2015) [PNum (F 39144818); PNum (F 2200000)];
            mkRow (Some 2020) [PNum (F 39368078); PNum (F 2184000)] ].

Definition raw_sample_reversed : Frame pyobj :=
  mkFrame [" Total"; "Black "]
          [ mkRow (Some 2020) [PNum (F 39368078); PNum (F 2184000)];
            mkRow (Some 2015) [PNum (F 39144818); PNum (F 2200000)] ].

(** A dataset with a zero Total in 2015. *)
Definition zero_total_sample : DataFrame :=
  mkFrame ["Total"; "Black"]
          [ mkRow (Some 2015) [F 0; F 2200000];
            mkRow (Some 2020) [F 39368078; F 2184000] ].

(* ================================================================== *)
(** * Boolean indexing and column reads *)

Lemma select_map_filter {A B : Type} (p : A -> bool) (f : A -> B) (l : list A) :
  select (map p l) (map f l) = map f (filter p l).
Proof.
  induction l as [|x l IH]; simpl; [reflexivity|].
  destruct (p x); simpl; now rewrite IH.
Qed.

Lemma select_filter {A : Type} (p : A -> bool) (l : list A) :
  select (map p l) l = filter p l.
Proof.
  rewrite <- (map_id l) at 2. rewrite select_map_filter. apply map_id.
Qed.

Lemma series_and_map {A : Type} (p q : A -> bool) (l : list A) :
  series_and (map p l) (map q l) = map (fun x => p x && q x) l.
Proof.
  unfold series_and. induction l as [|x l IH]; simpl; [reflexivity|].
  now rewrite IH.
Qed.

Lemma mask_in_range (df : DataFrame) (start_year end_year : Z) :
  mask df start_year end_year = map (in_range start_year end_year) (rows df).
Proof.
  unfold mask, Years. rewrite !map_map, series_and_map.
  apply map_ext. intros r. unfold in_range, year_ge, year_le.
  destruct (Year r); reflexivity.
Qed.

Lemma rows_filtered_df (df : DataFrame) (start_year end_year : Z) :
  rows (filtered_df df start_year end_year)
  = filter (in_range start_year end_year) (rows df).
Proof.
  unfold filtered_df, loc. simpl. rewrite mask_in_range. apply select_filter.
Qed.

Lemma columns_filtered_df (df : DataFrame) (start_year end_year : Z) :
  columns (filtered_df df start_year end_year) = columns df.
Proof. reflexivity. Qed.

Lemma filtered_df_eq (df : DataFrame) (start_year end_year : Z) :
  filtered_df df start_year end_year
  = mkFrame (columns df) (filter (in_range start_year end_year) (rows df)).
Proof.
  unfold filtered_df, loc. rewrite mask_in_range, select_filter. reflexivity.
Qed.

Lemma getitem_index (df : DataFrame) (c : string) (i : nat) :
  index_of c (columns df) = Some i ->
  getitem df c = Ok (map (cell i) (rows df)).
Proof. unfold getitem. now intros ->. Qed.

Lemma loc_year_eq (df : DataFrame) (y : Z) (c : string) (i : nat) :
  index_of c (columns df) = Some i ->
  loc_col df (map (year_eq y) (Years df)) c
  = Ok (map (cell i) (filter (at_year y) (rows df))).
Proof.
  intros Hi. unfold loc_col. rewrite (getitem_index _ _ _ Hi). simpl.
  unfold Years. rewrite map_map.
  now rewrite (select_map_filter (fun r => year_eq y (Year r)) (cell i)).
Qed.

Lemma index_of_has_column (df : DataFrame) (c : string) :
  has_column df c = true <-> exists i, index_of c (columns df) = Some i.
Proof.
  unfold has_column. induction (columns df) as [|h t IH]; simpl.
  - split; [discriminate | intros [i Hi]; discriminate].
  - destruct (String.eqb c h); simpl.
    + split; [intros _; now exists O | reflexivity].
    + rewrite IH. split; intros [i Hi].
      * exists (S i). now rewrite Hi.
      * destruct (index_of c t) as [j|]; [now exists j | discriminate].
Qed.

Lemma has_column_false (df : DataFrame) (c : string) :
  has_column df c = false -> index_of c (columns df) = None.
Proof.
  intros H. destruct (index_of c (columns df)) as [i|] eqn:E; [|reflexivity].
  assert (has_column df c = true) by (apply index_of_has_column; now exists i).
  congruence.
Qed.

Lemma messages_distinct :
  InvalidRangeError <> EmptyRangeError /\ YearNotFoundError <> EmptyRangeError
  /\ YearNotFoundError <> InvalidRangeError.
Proof. repeat split; discriminate. Qed.

(* ================================================================== *)
(** * Range validation and the filter *)

(** C3.  A start year above the end year is turned down with the
    InvalidRangeError message and nothing else is put on the page: no
    filter, no metric, the years taken as given (neither clamped nor
    swapped).  With start <= end the check passes and the run goes on to
    the filter of exactly that range. *)
Theorem C3_range_validation (df : DataFrame) (start_year end_year : Z)
        (target : string) (compare_targets : list string) :
  (start_year > end_year ->
     validate_and_filter df start_year end_year = inl InvalidRangeError
     /\ analyze df start_year end_year target compare_targets
        = ([st_error InvalidRangeError], Ok tt))
  /\
  (start_year <= end_year ->
     validate_and_filter df start_year end_year <> inl InvalidRangeError
     /\ validate_and_filter df start_year end_year
        = (if empty (filtered_df df start_year end_year)
           then inl EmptyRangeError
           else inr (filtered_df df start_year end_year))
     /\ analyze df start_year end_year target compare_targets
        = (if empty (filtered_df df start_year end_year)
           then ([st_error EmptyRangeError], Ok tt)
           else bind (tab1 df (filtered_df df start_year end_year)
                           start_year end_year target)
                     (fun _ => tab2 (filtered_df df start_year end_year)
                                    compare_targets))).
Proof.
  split; intros H.
  - assert (E : validate_and_filter df start_year end_year = inl InvalidRangeError).
    { unfold validate_and_filter.
      destruct (Z.gtb_spec start_year end_year); [reflexivity | lia]. }
    split; [exact E|]. unfold analyze. now rewrite E.
  - assert (E : validate_and_filter df start_year end_year
                = (if empty (filtered_df df start_year end_year)
                   then inl EmptyRangeError
                   else inr (filtered_df df start_year end_year))).
    { unfold validate_and_filter.
      destruct (Z.gtb_spec start_year end_year); [lia | reflexivity]. }
    split; [|split; [exact E|]].
    + rewrite E. destruct (empty _); [|discriminate].
      intros C. injection C as C. symmetry in C.
      now apply (proj1 messages_distinct).
    + unfold analyze. rewrite E. now destruct (empty _).
Qed.

Lemma C3_range_validation_witness :
  analyze ca_sample 2020 2015 "Black" ["Black"] = ([st_error InvalidRangeError], Ok tt)
  /\ validate_and_filter ca_sample 2015 2020 <> inl InvalidRangeError.
Proof.
  split.
  - apply (proj1 (C3_range_validation ca_sample 2020 2015 "Black" ["Black"])). lia.
  - apply (proj2 (C3_range_validation ca_sample 2015 2020 "Black" ["Black"])). lia.
Defined.

(** C4.  For start <= end the filtered view is exactly the rows of the
    dataset, in their order, whose Year lies in [start, end]; the
    EmptyRangeError message is the outcome if and only if no row does, and
    otherwise the view is handed on. *)
Theorem C4_filter (df : DataFrame) (start_year end_year : Z) :
  start_year <= end_year ->
  rows (filtered_df df start_year end_year)
  = filter (in_range start_year end_year) (rows df)
  /\ columns (filtered_df df start_year end_year) = columns df
  /\ (validate_and_filter df start_year end_year = inl EmptyRangeError
      <-> filter (in_range start_year end_year) (rows df) = [])
  /\ (filter (in_range start_year end_year) (rows df) <> [] ->
      validate_and_filter df start_year end_year
      = inr (mkFrame (columns df) (filter (in_range start_year end_year) (rows df)))).
Proof.
  intros H.
  split; [apply rows_filtered_df|]. split; [reflexivity|].
  unfold validate_and_filter.
  destruct (Z.gtb_spec start_year end_year); [lia|].
  unfold empty. rewrite rows_filtered_df, filtered_df_eq.
  destruct (filter (in_range start_year end_year) (rows df)) as [|r l].
  - split; [tauto|]. intros C. now contradiction C.
  - split; [split; discriminate | reflexivity].
Qed.

Lemma C4_filter_witness :
  rows (filtered_df ca_sample 2016 2021)
  = filter (in_range 2016 2021) (rows ca_sample)
  /\ (validate_and_filter ca_sample 2016 2019 = inl EmptyRangeError
      <-> filter (in_range 2016 2019) (rows ca_sample) = []).
Proof.
  split.
  - apply (C4_filter ca_sample 2016 2021). lia.
  - apply (C4_filter ca_sample 2016 2019). lia.
Defined.

(* ================================================================== *)
(** * The change metric *)

Lemma filter_nil_year (df : DataFrame) (y : Z) :
  filter (at_year y) (rows df) = [] <-> ~ In (Some y) (Years df).
Proof.
  unfold Years. induction (rows df) as [|r l IH]; simpl.
  - tauto.
  - unfold at_year at 1, year_eq. destruct (Year r) as [v|] eqn:Ey.
    + destruct (Z.eqb_spec v y) as [->|Hne].
      * split; [discriminate | intros C; exfalso; apply C; now left].
      * rewrite IH. split.
        -- intros Hn [C|C]; [congruence | tauto].
        -- intros Hn C. apply Hn. now right.
    + rewrite IH. split.
      * intros Hn [C|C]; [discriminate | tauto].
      * intros Hn C. apply Hn. now right.
Qed.

Lemma find_filter {A : Type} (p : A -> bool) (l : list A) (x : A) :
  find p l = Some x <-> exists t, filter p l = x :: t.
Proof.
  induction l as [|h l IH]; simpl.
  - split; [discriminate | intros [t Ht]; discriminate].
  - destruct (p h).
    + split.
      * intros [= ->]. now exists (filter p l).
      * intros [t [= -> _]]. reflexivity.
    + exact IH.
Qed.

Lemma filter_first {A : Type} (p : A -> bool) (before after : list A) (x : A) :
  p x = true -> (forall z, In z before -> p z = false) ->
  filter p (before ++ x :: after) = x :: filter p after.
Proof.
  intros Hx. induction before as [|h t IH]; simpl; intros Hb.
  - now rewrite Hx.
  - rewrite (Hb h) by now left. apply IH. intros z Hz. apply Hb. now right.
Qed.

(** What lines 68-78 do, read off the rows. *)
Lemma change_metrics_rows (df : DataFrame) (start_year end_year : Z)
      (target : string) (i : nat) :
  index_of target (columns df) = Some i ->
  change_metrics df start_year end_year target
  = match filter (at_year start_year) (rows df),
          filter (at_year end_year) (rows df) with
    | r1 :: _, r2 :: _ =>
        match py_int (cell i r1) with
        | Raise ex => ([], Raise ex)
        | Ok initial =>
            match py_int (cell i r2) with
            | Raise ex => ([], Raise ex)
            | Ok final =>
                match pct initial final with
                | Raise ex => ([], Raise ex)
                | Ok p => ([st_metric target start_year initial None;
                            st_metric target end_year final (Some p)], Ok tt)
                end
            end
        end
    | _, _ => ([st_error YearNotFoundError], Ok tt)
    end.
Proof.
  intros Hi. unfold change_metrics, initial_val, final_val.
  rewrite !(loc_year_eq _ _ _ _ Hi). simpl.
  destruct (filter (at_year start_year) (rows df)) as [|r1 l1]; simpl;
    [reflexivity|].
  destruct (filter (at_year end_year) (rows df)) as [|r2 l2]; simpl;
    [reflexivity|].
  destruct (py_int (cell i r1)) as [initial|ex]; simpl; [|reflexivity].
  destruct (py_int (cell i r2)) as [final|ex]; simpl; [|reflexivity].
  destruct (pct initial final) as [p|ex]; simpl; reflexivity.
Qed.

(** With start <= end, a row at the start year puts the run past both
    checks of lines 50-57, so the change metric is reached. *)
Lemma start_row_reaches_tabs (df : DataFrame) (start_year end_year : Z)
      (r : Row float) :
  start_year <= end_year ->
  find (at_year start_year) (rows df) = Some r ->
  validate_and_filter df start_year end_year
  = inr (filtered_df df start_year end_year).
Proof.
  intros Hle Hfind. unfold validate_and_filter.
  destruct (Z.gtb_spec start_year end_year); [lia|].
  unfold empty. rewrite rows_filtered_df.
  apply find_some in Hfind. destruct Hfind as [Hin Hat].
  assert (Hr : In r (filter (in_range start_year end_year) (rows df))).
  { apply filter_In. split; [exact Hin|].
    unfold at_year, year_eq in Hat. unfold in_range.
    destruct (Year r) as [v|]; [|discriminate].
    apply Z.eqb_eq in Hat. subst v.
    apply andb_true_intro. split; apply Z.leb_le; lia. }
  destruct (filter (in_range start_year end_year) (rows df)); [destruct Hr | reflexivity].
Qed.

Lemma int_truediv_nonzero (a b : Z) :
  b <> 0 -> int_truediv a b <> Raise ZeroDivisionError.
Proof.
  intros Hb. unfold int_truediv.
  destruct (Z.eqb_spec b 0); [contradiction|].
  destruct (a =? 0); [discriminate|].
  destruct (fdiv (exact_of_Z a) (exact_of_Z b)); discriminate.
Qed.

(** C1.  With a row at the start year and a row at the end year, and
    [initial], [final] the integer parts of the target's values in the
    first such rows: the metric shows [initial], [final] and, as delta,
    0.0 when [initial] is zero and otherwise
    round((final - initial) / initial * 100, 2), evaluated as Python
    evaluates it: an int by int true division (which never divides by
    zero here), a float product, a rounding to two decimals. *)
Theorem C1_percent_change (df : DataFrame) (start_year end_year : Z)
        (target : string) (i : nat) (r1 r2 : Row float) (initial final : Z) :
  index_of target (columns df) = Some i ->
  find (at_year start_year) (rows df) = Some r1 ->
  find (at_year end_year) (rows df) = Some r2 ->
  py_int (cell i r1) = Ok initial ->
  py_int (cell i r2) = Ok final ->
  (initial = 0 ->
     change_metrics df start_year end_year target
     = ([st_metric target start_year initial None;
         st_metric target end_year final (Some (S754_zero false))], Ok tt))
  /\
  (initial <> 0 ->
     int_truediv (final - initial) initial <> Raise ZeroDivisionError
     /\ change_metrics df start_year end_year target
        = match int_truediv (final - initial) initial with
          | Ok q =>
              ([st_metric target start_year initial None;
                st_metric target end_year final
                          (Some (py_round2 (fmul q (float_of_Z 100))))], Ok tt)
          | Raise ex => ([], Raise ex)
          end).
Proof.
  intros Hi H1 H2 Hinit Hfin.
  apply find_filter in H1. destruct H1 as [t1 H1].
  apply find_filter in H2. destruct H2 as [t2 H2].
  rewrite (change_metrics_rows _ _ _ _ _ Hi), H1, H2, Hinit, Hfin.
  unfold pct. split.
  - intros ->. reflexivity.
  - intros Hnz. split; [now apply int_truediv_nonzero|].
    destruct (Z.eqb_spec initial 0); [contradiction|]. simpl.
    destruct (int_truediv (final - initial) initial); reflexivity.
Qed.

Lemma C1_percent_change_witness :
  change_metrics ca_sample 2015 2020 "Black"
  = ([st_metric "Black" 2015 2200000 None;
      st_metric "Black" 2020 2184000
                (Some (S754_finite true 6575255455960924 (-53)))], Ok tt).
Proof.
  destruct (C1_percent_change ca_sample 2015 2020 "Black" 1%nat
              (mkRow (Some 2015) [F 39144818; F 2200000])
              (mkRow (Some 2020) [F 39368078; F 2184000])
              2200000 2184000
              eq_refl eq_refl eq_refl eq_refl eq_refl) as [_ H].
  destruct H as [_ H]; [lia|].
  rewrite H. vm_compute. reflexivity.
Defined.

(** C5.  The two lookups read the dataset (not the filtered view) and
    keep the rows whose Year equals start_year, respectively end_year;
    the YearNotFoundError message is the outcome if and only if one of
    the two years is no Year of the dataset, and it is another message
    than EmptyRangeError. *)
Theorem C5_year_lookup (df : DataFrame) (start_year end_year : Z)
        (target : string) (i : nat) :
  index_of target (columns df) = Some i ->
  initial_val df start_year target
  = Ok (map (cell i) (filter (at_year start_year) (rows df)))
  /\ final_val df end_year target
     = Ok (map (cell i) (filter (at_year end_year) (rows df)))
  /\ (change_metrics df start_year end_year target
      = ([st_error YearNotFoundError], Ok tt)
      <-> ~ In (Some start_year) (Years df) \/ ~ In (Some end_year) (Years df))
  /\ YearNotFoundError <> EmptyRangeError.
Proof.
  intros Hi.
  split; [now apply loc_year_eq|]. split; [now apply loc_year_eq|].
  split; [|apply messages_distinct].
  rewrite (change_metrics_rows _ _ _ _ _ Hi), <- !filter_nil_year.
  destruct (filter (at_year start_year) (rows df)) as [|r1 l1].
  - split; [now left | reflexivity].
  - destruct (filter (at_year end_year) (rows df)) as [|r2 l2].
    + split; [now right | reflexivity].
    + split.
      * destruct (py_int (cell i r1)) as [initial|]; [|discriminate].
        destruct (py_int (cell i r2)) as [final|]; [|discriminate].
        destruct (pct initial final); discriminate.
      * intros [C|C]; discriminate.
Qed.

Lemma C5_year_lookup_witness :
  change_metrics ca_sample 2014 2020 "Black" = ([st_error YearNotFoundError], Ok tt)
  /\ validate_and_filter ca_sample 2014 2020 = inr ca_sample.
Proof.
  split; [|reflexivity].
  apply (C5_year_lookup ca_sample 2014 2020 "Black" 1%nat eq_refl).
  left. vm_compute. intros [C|[C|C]]; [discriminate C | discriminate C | exact C].
Defined.

(** C10.  When several rows carry the looked-up year, the value read is
    that of the first of them in the order of the dataset: whatever
    follows that row, rows of the same year included, is not looked at. *)
Theorem C10_first_row_wins (df : DataFrame) (y : Z) (target : string) (i : nat)
        (before after : list (Row float)) (r : Row float) :
  index_of target (columns df) = Some i ->
  rows df = before ++ r :: after ->
  Year r = Some y ->
  (forall r', In r' before -> Year r' <> Some y) ->
  (s <- initial_val df y target ;; iloc0 s) = Ok (cell i r)
  /\ (s <- final_val df y target ;; iloc0 s) = Ok (cell i r).
Proof.
  intros Hi Hrows Hy Hbefore.
  assert (E : filter (at_year y) (rows df) = r :: filter (at_year y) after).
  { rewrite Hrows. apply filter_first.
    - unfold at_year, year_eq. rewrite Hy. apply Z.eqb_refl.
    - intros z Hz. unfold at_year, year_eq.
      destruct (Year z) as [v|] eqn:Ez; [|reflexivity].
      destruct (Z.eqb_spec v y) as [->|]; [|reflexivity].
      exfalso. now apply (Hbefore z Hz). }
  unfold initial_val, final_val.
  rewrite (loc_year_eq _ _ _ _ Hi), E. simpl. split; reflexivity.
Qed.

Lemma C10_first_row_wins_witness :
  (s <- initial_val (load parse_decimal raw_repeated_year) 2015 "Black" ;; iloc0 s)
  = Ok (F 10).
Proof.
  apply (C10_first_row_wins (load parse_decimal raw_repeated_year) 2015 "Black" 1%nat
           [] [mkRow (Some 2015) [F 200; F 20]; mkRow (Some 2020) [F 300; F 30]]
           (mkRow (Some 2015) [F 100; F 10])).
  - reflexivity.
  - reflexivity.
  - reflexivity.
  - intros r' [].
Defined.

(* ================================================================== *)
(** * Year bounds *)

Lemma fold_skipna_min (ys : list (option Z)) (acc : option Z) :
  match fold_left (skipna Z.min) ys acc with
  | None => acc = None /\ forall v, ~ In (Some v) ys
  | Some m => (acc = Some m \/ In (Some m) ys)
              /\ (forall a, acc = Some a -> m <= a)
              /\ (forall v, In (Some v) ys -> m <= v)
  end.
Proof.
  revert acc. induction ys as [|y ys IH]; intros acc; simpl.
  - destruct acc as [a|].
    + split; [now left|]. split; [intros ? [= ->]; lia | intros v []].
    + split; [reflexivity | intros v []].
  - specialize (IH (skipna Z.min acc y)).
    destruct (fold_left (skipna Z.min) ys (skipna Z.min acc y)) as [m|].
    + destruct IH as (Hin & Hacc & Hys). destruct acc as [a|], y as [b|]; simpl in *.
      * split; [|split].
        -- destruct Hin as [[= E]|Hin]; [|now right; right].
           destruct (Z.min_spec a b) as [[_ E']|[_ E']]; rewrite E' in E; subst;
             [now left | now right; left].
        -- intros a' [= <-]. specialize (Hacc _ eq_refl). lia.
        -- intros v [[= <-]|Hv]; [specialize (Hacc _ eq_refl); lia | now apply Hys].
      * split; [|split].
        -- destruct Hin as [Hin|Hin]; [now left | now right; right].
        -- exact Hacc.
        -- intros v [C|Hv]; [discriminate | now apply Hys].
      * split; [|split].
        -- destruct Hin as [Hin|Hin]; [now right; left | now right; right].
        -- intros ? [=].
        -- intros v [[= <-]|Hv]; [now apply Hacc | now apply Hys].
      * split; [|split].
        -- destruct Hin as [Hin|Hin]; [discriminate | now right; right].
        -- intros ? [=].
        -- intros v [C|Hv]; [discriminate | now apply Hys].
    + destruct IH as (Hacc & Hys). destruct acc as [a|], y as [b|]; simpl in *;
        try discriminate.
      split; [reflexivity|]. intros v [C|Hv]; [discriminate | now apply (Hys v)].
Qed.

Lemma fold_skipna_max (ys : list (option Z)) (acc : option Z) :
  match fold_left (skipna Z.max) ys acc with
  | None => acc = None /\ forall v, ~ In (Some v) ys
  | Some m => (acc = Some m \/ In (Some m) ys)
              /\ (forall a, acc = Some a -> a <= m)
              /\ (forall v, In (Some v) ys -> v <= m)
  end.
Proof.
  revert acc. induction ys as [|y ys IH]; intros acc; simpl.
  - destruct acc as [a|].
    + split; [now left|]. split; [intros ? [= ->]; lia | intros v []].
    + split; [reflexivity | intros v []].
  - specialize (IH (skipna Z.max acc y)).
    destruct (fold_left (skipna Z.max) ys (skipna Z.max acc y)) as [m|].
    + destruct IH as (Hin & Hacc & Hys). destruct acc as [a|], y as [b|]; simpl in *.
      * split; [|split].
        -- destruct Hin as [[= E]|Hin]; [|now right; right].
           destruct (Z.max_spec a b) as [[_ E']|[_ E']]; rewrite E' in E; subst;
             [now right; left | now left].
        -- intros a' [= <-]. specialize (Hacc _ eq_refl). lia.
        -- intros v [[= <-]|Hv]; [specialize (Hacc _ eq_refl); lia | now apply Hys].
      * split; [|split].
        -- destruct Hin as [Hin|Hin]; [now left | now right; right].
        -- exact Hacc.
        -- intros v [C|Hv]; [discriminate | now apply Hys].
      * split; [|split].
        -- destruct Hin as [Hin|Hin]; [now right; left | now right; right].
        -- intros ? [=].
        -- intros v [[= <-]|Hv]; [now apply Hacc | now apply Hys].
      * split; [|split].
        -- destruct Hin as [Hin|Hin]; [discriminate | now right; right].
        -- intros ? [=].
        -- intros v [C|Hv]; [discriminate | now apply Hys].
    + destruct IH as (Hacc & Hys). destruct acc as [a|], y as [b|]; simpl in *;
        try discriminate.
      split; [reflexivity|]. intros v [C|Hv]; [discriminate | now apply (Hys v)].
Qed.

(** C9.  The year bounds exist only when some row has a Year: on a
    dataset without rows (and on one whose Years are all NaN) line 27
    and line 28 raise ValueError, and so does the whole script, whatever
    the widgets return.  As soon as one row has a Year both bounds are
    integers, the least and the greatest Year of the dataset. *)
Theorem C9_year_bounds (df : DataFrame) :
  (rows df = [] ->
     min_year df = Raise ValueError /\ max_year df = Raise ValueError
     /\ forall start_year end_year target compare_targets,
          script df start_year end_year target compare_targets
          = ([], Raise ValueError))
  /\
  ((forall v, ~ In (Some v) (Years df)) ->
     min_year df = Raise ValueError /\ max_year df = Raise ValueError)
  /\
  (forall v, In (Some v) (Years df) ->
     exists lo hi,
       min_year df = Ok lo /\ max_year df = Ok hi
       /\ In (Some lo) (Years df) /\ In (Some hi) (Years df)
       /\ forall w, In (Some w) (Years df) -> lo <= w <= hi).
Proof.
  assert (Hnone : (forall v, ~ In (Some v) (Years df)) ->
                  min_year df = Raise ValueError /\ max_year df = Raise ValueError).
  { intros Hno. unfold min_year, max_year, series_min, series_max.
    pose proof (fold_skipna_min (Years df) None) as Hmin.
    pose proof (fold_skipna_max (Years df) None) as Hmax.
    destruct (fold_left (skipna Z.min) (Years df) None) as [m|].
    - destruct Hmin as ([C|Hin] & _); [discriminate | now destruct (Hno m)].
    - destruct (fold_left (skipna Z.max) (Years df) None) as [m|].
      + destruct Hmax as ([C|Hin] & _); [discriminate | now destruct (Hno m)].
      + split; reflexivity. }
  split; [|split; [exact Hnone|]].
  - intros Hrows.
    assert (Hno : forall v, ~ In (Some v) (Years df)).
    { unfold Years. rewrite Hrows. intros v []. }
    destruct (Hnone Hno) as [Hmin Hmax]. split; [exact Hmin|]. split; [exact Hmax|].
    intros. unfold script. rewrite Hmin. reflexivity.
  - intros v Hv. unfold min_year, max_year, series_min, series_max.
    pose proof (fold_skipna_min (Years df) None) as Hmin.
    pose proof (fold_skipna_max (Years df) None) as Hmax.
    destruct (fold_left (skipna Z.min) (Years df) None) as [lo|];
      [|now destruct (proj2 Hmin v)].
    destruct (fold_left (skipna Z.max) (Years df) None) as [hi|];
      [|now destruct (proj2 Hmax v)].
    destruct Hmin as ([C|Hlo] & _ & Hle); [discriminate|].
    destruct Hmax as ([C|Hhi] & _ & Hge); [discriminate|].
    exists lo, hi. repeat split; auto.
Qed.

Lemma C9_year_bounds_witness :
  script empty_sample 2015 2020 "Black" ["Black"] = ([], Raise ValueError)
  /\ exists lo hi, min_year ca_sample = Ok lo /\ max_year ca_sample = Ok hi
                   /\ In (Some lo) (Years ca_sample) /\ In (Some hi) (Years ca_sample)
                   /\ forall w, In (Some w) (Years ca_sample) -> lo <= w <= hi.
Proof.
  split.
  - apply (proj1 (C9_year_bounds empty_sample)). reflexivity.
  - apply (proj2 (proj2 (C9_year_bounds ca_sample)) 2015). simpl. now left.
Defined.

(* ================================================================== *)
(** * Percent of total *)

Lemma series_ratio {A : Type} (f g : A -> float) (k : float) (l : list A) :
  series_mul (series_div (map f l) (map g l)) k
  = map (fun r => fmul (fdiv (f r) (g r)) k) l.
Proof.
  unfold series_mul, series_div.
  induction l as [|x l IH]; simpl; [reflexivity|]. now rewrite IH.
Qed.

Lemma pct_series_rows (fdf : DataFrame) (c : string) (i t : nat) :
  index_of c (columns fdf) = Some i ->
  index_of "Total" (columns fdf) = Some t ->
  pct_series fdf c
  = Ok (map (fun r => fmul (fdiv (cell i r) (cell t r)) (float_of_Z 100)) (rows fdf)).
Proof.
  intros Hi Ht. unfold pct_series.
  rewrite (getitem_index _ _ _ Hi), (getitem_index _ _ _ Ht). simpl.
  now rewrite series_ratio.
Qed.

Lemma mapM_Forall2 {A B : Type} (f : A -> result B) (l : list A) :
  (forall x, In x l -> exists y, f x = Ok y) ->
  exists ys, mapM f l = Ok ys /\ Forall2 (fun x y => f x = Ok y) l ys.
Proof.
  induction l as [|x l IH]; intros H; simpl.
  - exists []. split; [reflexivity | constructor].
  - destruct (H x (or_introl eq_refl)) as [y Hy].
    destruct IH as (ys & Hys & Hall); [intros z Hz; apply H; now right|].
    exists (y :: ys). rewrite Hy, Hys. split; [reflexivity | now constructor].
Qed.

(** C7.  In a view that has a Total column, the percent-of-total series
    of a column holds, row by row, the column's value divided by the
    Total of the same row, times 100.0.  That series is what the
    single-series chart of the first tab draws, and each line of the
    comparison chart is that series for its column. *)
Theorem C7_percent_of_total (fdf : DataFrame) (t : nat) :
  index_of "Total" (columns fdf) = Some t ->
  (forall c i, index_of c (columns fdf) = Some i ->
     exists ps,
       pct_series fdf c = Ok ps
       /\ List.length ps = List.length (rows fdf)
       /\ forall k r, nth_error (rows fdf) k = Some r ->
            nth_error ps k
            = Some (fmul (fdiv (cell i r) (cell t r)) (float_of_Z 100)))
  /\
  (forall df start_year end_year target i ps,
     index_of target (columns fdf) = Some i ->
     target <> "Total" ->
     pct_series fdf target = Ok ps ->
     tab1 df fdf start_year end_year target
     = bind (change_metrics df start_year end_year target)
            (fun _ => ([st_pyplot (Years fdf) [mkLine None (map (cell i) (rows fdf))];
                        st_pyplot (Years fdf) [mkLine None ps]], Ok tt)))
  /\
  (forall compare_targets,
     (forall c, In c compare_targets -> has_column fdf c = true) ->
     exists ls,
       percent_lines fdf compare_targets = Ok ls
       /\ Forall2 (fun c l => label l = Some c /\ pct_series fdf c = Ok (ydata l))
                  compare_targets ls).
Proof.
  intros Ht. split; [|split].
  - intros c i Hi. eexists. split; [apply (pct_series_rows _ _ _ _ Hi Ht)|].
    split; [apply List.length_map|].
    intros k r Hk. rewrite nth_error_map, Hk. reflexivity.
  - intros df start_year end_year target i ps Hi Hne Hps. unfold tab1.
    assert (HT : has_column fdf "Total" = true)
      by (apply index_of_has_column; now exists t).
    rewrite HT, (getitem_index _ _ _ Hi), Hps.
    apply String.eqb_neq in Hne. rewrite Hne. simpl.
    destruct (change_metrics df start_year end_year target) as [out [[]|ex]];
      reflexivity.
  - intros compare_targets Hall. unfold percent_lines.
    destruct (mapM_Forall2
                (fun each => p <- pct_series fdf each ;; Ok (mkLine (Some each) p))
                compare_targets) as (ls & Hls & HF).
    + intros c Hc. apply Hall, index_of_has_column in Hc. destruct Hc as [i Hi].
      rewrite (pct_series_rows _ _ _ _ Hi Ht). simpl. eauto.
    + exists ls. split; [exact Hls|].
      clear Hls Hall. induction HF as [|c l cs ls' Hc HF IH]; constructor; auto.
      destruct (pct_series fdf c) as [p|ex]; simpl in Hc; [|discriminate].
      injection Hc as <-. split; reflexivity.
Qed.

Lemma C7_percent_of_total_witness :
  exists ps,
    pct_series ca_sample "Black" = Ok ps
    /\ List.length ps = List.length (rows ca_sample)
    /\ forall k r, nth_error (rows ca_sample) k = Some r ->
         nth_error ps k
         = Some (fmul (fdiv (cell 1 r) (cell 0 r)) (float_of_Z 100)).
Proof.
  apply (proj1 (C7_percent_of_total ca_sample 0%nat eq_refl) "Black" 1%nat).
  reflexivity.
Defined.

(** C8.  Without a Total column, and with at least one series chosen
    among the columns, the second tab still draws the absolute
    comparison, one labelled line per chosen column with that column's
    values, and then shows the MissingTotalError warning in place of
    the percentage chart; the run ends normally.  (The guard of line 121
    is what keeps it so: line 124 without a Total column would raise
    KeyError.) *)
Theorem C8_missing_total (fdf : DataFrame) (compare_targets : list string) :
  has_column fdf "Total" = false ->
  compare_targets <> [] ->
  (forall c, In c compare_targets -> has_column fdf c = true) ->
  exists ls,
    absolute_lines fdf compare_targets = Ok ls
    /\ Forall2 (fun c l => label l = Some c /\ getitem fdf c = Ok (ydata l))
               compare_targets ls
    /\ tab2 fdf compare_targets
       = ([st_pyplot (Years fdf) ls; st_warning MissingTotalError], Ok tt)
    /\ percent_lines fdf compare_targets = Raise (KeyError "Total").
Proof.
  intros HT Hne Hall. unfold absolute_lines.
  destruct (mapM_Forall2
              (fun each => y <- getitem fdf each ;; Ok (mkLine (Some each) y))
              compare_targets) as (ls & Hls & HF).
  { intros c Hc. apply Hall, index_of_has_column in Hc. destruct Hc as [i Hi].
    rewrite (getitem_index _ _ _ Hi). simpl. eauto. }
  exists ls. split; [exact Hls|]. split; [|split].
  - clear Hls Hall Hne. induction HF as [|c l cs ls' Hc HF IH]; constructor; auto.
    destruct (getitem fdf c) as [y|ex]; simpl in Hc; [|discriminate].
    injection Hc as <-. split; reflexivity.
  - unfold tab2, absolute_lines. rewrite Hls, HT.
    destruct compare_targets; [contradiction|]. reflexivity.
  - unfold percent_lines. destruct compare_targets as [|c cs]; [contradiction|].
    simpl. unfold pct_series.
    destruct (proj1 (index_of_has_column fdf c) (Hall c (or_introl eq_refl)))
      as [i Hi].
    rewrite (getitem_index _ _ _ Hi). simpl.
    unfold getitem. now rewrite (has_column_false _ _ HT).
Qed.

Lemma C8_missing_total_witness :
  exists ls,
    absolute_lines no_total_sample ["Black"; "Asian"] = Ok ls
    /\ Forall2 (fun c l => label l = Some c /\ getitem no_total_sample c = Ok (ydata l))
               ["Black"; "Asian"] ls
    /\ tab2 no_total_sample ["Black"; "Asian"]
       = ([st_pyplot (Years no_total_sample) ls; st_warning MissingTotalError], Ok tt)
    /\ percent_lines no_total_sample ["Black"; "Asian"] = Raise (KeyError "Total").
Proof.
  apply (C8_missing_total no_total_sample ["Black"; "Asian"]).
  - reflexivity.
  - discriminate.
  - intros c [<-|[<-|[]]]; reflexivity.
Defined.

(* ================================================================== *)
(** * Missing values *)

Lemma to_numeric_coerces (parse_number : string -> option float) (s : string) :
  parse_number s = None -> to_numeric parse_number (PStr s) = nan.
Proof. intros H. unfold to_numeric. now rewrite H. Qed.

Lemma fdiv_nan_l (x : float) : fdiv nan x = nan.
Proof. reflexivity. Qed.

Lemma fdiv_nan_r (x : float) : fdiv x nan = nan.
Proof. now destruct x. Qed.

Lemma fmul_nan_l (x : float) : fmul nan x = nan.
Proof. reflexivity. Qed.

(** The percent-of-total series carries a missing value or a missing
    Total through as NaN, row by row, and raises nothing. *)
Lemma pct_series_missing (fdf : DataFrame) (c : string) (i t : nat) :
  index_of c (columns fdf) = Some i ->
  index_of "Total" (columns fdf) = Some t ->
  exists ps,
    pct_series fdf c = Ok ps
    /\ forall k r, nth_error (rows fdf) k = Some r ->
         (cell i r = nan \/ cell t r = nan) -> nth_error ps k = Some nan.
Proof.
  intros Hi Ht. eexists. split; [apply (pct_series_rows _ _ _ _ Hi Ht)|].
  intros k r Hk Hnan. rewrite nth_error_map, Hk. simpl.
  destruct Hnan as [-> | ->]; [reflexivity | now rewrite fdiv_nan_r].
Qed.

(** The change metric does not: [int] of a missing value raises. *)
Lemma change_metrics_missing (df : DataFrame) (start_year end_year : Z)
      (target : string) (i : nat) (r1 r2 : Row float) :
  index_of target (columns df) = Some i ->
  find (at_year start_year) (rows df) = Some r1 ->
  find (at_year end_year) (rows df) = Some r2 ->
  cell i r1 = nan ->
  change_metrics df start_year end_year target = ([], Raise ValueError).
Proof.
  intros Hi H1 H2 Hnan.
  apply find_filter in H1. destruct H1 as [t1 H1].
  apply find_filter in H2. destruct H2 as [t2 H2].
  now rewrite (change_metrics_rows _ _ _ _ _ Hi), H1, H2, Hnan.
Qed.

(** C2.  The file of the example with the text abc in the Black cell
    of 2015: the loader makes the cell NaN, the percent-of-total series
    carries the NaN, and the change metric of Black from 2015 to 2020
    raises ValueError, which ends the script before any metric or chart
    is shown. *)
Theorem C2_missing_value_raises :
  getitem (load parse_decimal raw_with_text) "Black" = Ok [nan; F 2184000]
  /\ pct_series (load parse_decimal raw_with_text) "Black"
     = Ok [nan; S754_finite false 6246089525996902 (-50)]
  /\ change_metrics (load parse_decimal raw_with_text) 2015 2020 "Black"
     = ([], Raise ValueError)
  /\ script (load parse_decimal raw_with_text) 2015 2020 "Black" ["Black"]
     = ([], Raise ValueError).
Proof. repeat split; vm_compute; reflexivity. Qed.

(* ================================================================== *)
(** * The loaded dataset *)

Lemma year_leb_order {A : Type} (r1 r2 : Row A) :
  year_leb (Year r1) (Year r2) = true -> year_order r1 r2.
Proof.
  unfold year_leb, year_order.
  destruct (Year r1), (Year r2); try easy. intros H. now apply Z.leb_le.
Qed.

Lemma year_leb_total {A : Type} (r1 r2 : Row A) :
  year_leb (Year r1) (Year r2) = false -> year_order r2 r1.
Proof.
  unfold year_leb, year_order.
  destruct (Year r1), (Year r2); try easy. intros H. apply Z.leb_gt in H. lia.
Qed.

Lemma year_order_trans {A : Type} (r1 r2 r3 : Row A) :
  year_order r1 r2 -> year_order r2 r3 -> year_order r1 r3.
Proof.
  unfold year_order. destruct (Year r1), (Year r2), (Year r3); try easy. lia.
Qed.

Lemma insert_row_perm {A : Type} (r : Row A) (l : list (Row A)) :
  Permutation (insert_row r l) (r :: l).
Proof.
  induction l as [|h t IH]; simpl; [reflexivity|].
  destruct (year_leb (Year r) (Year h)); [reflexivity|].
  rewrite IH. apply perm_swap.
Qed.

Lemma sort_rows_perm {A : Type} (l : list (Row A)) : Permutation (sort_rows l) l.
Proof.
  induction l as [|h t IH]; simpl; [reflexivity|].
  rewrite insert_row_perm. now apply perm_skip.
Qed.

Lemma insert_row_sorted {A : Type} (r : Row A) (l : list (Row A)) :
  Sorted year_order l -> Sorted year_order (insert_row r l).
Proof.
  induction 1 as [|h t Hs IH Hhd]; simpl.
  - repeat constructor.
  - destruct (year_leb (Year r) (Year h)) eqn:E.
    + constructor; [now constructor|]. constructor. now apply year_leb_order.
    + constructor; [exact IH|].
      destruct Hhd as [|h' t' Hh]; simpl.
      * constructor. now apply year_leb_total.
      * destruct (year_leb (Year r) (Year h')); constructor;
          [now apply year_leb_total | exact Hh].
Qed.

Lemma sort_rows_sorted {A : Type} (l : list (Row A)) :
  StronglySorted year_order (sort_rows l).
Proof.
  apply Sorted_StronglySorted.
  - intros r1 r2 r3. apply year_order_trans.
  - induction l as [|h t IH]; simpl; [constructor | now apply insert_row_sorted].
Qed.

Lemma Years_load (parse_number : string -> option float) (raw : Frame pyobj) :
  Permutation (Years (load parse_number raw)) (Years raw).
Proof.
  unfold load, sort_values, Years. simpl.
  rewrite (Permutation_map Year (sort_rows_perm _)).
  rewrite !map_map. simpl. reflexivity.
Qed.

(** C6, as the loader has it.  After normalisation the rows are in
    ascending order of Year (equal years side by side, rows without a
    Year last) and they are the rows of the source, none dropped and
    none merged: each row of the source is there once, with its Year
    and with its cells under the kept columns made numbers.  So the
    Years of the dataset are the Years of the source in another order,
    and they are unique exactly when the source's are. *)
Theorem C6_load_sorted (parse_number : string -> option float) (raw : Frame pyobj) :
  StronglySorted year_order (rows (load parse_number raw))
  /\ Permutation
       (rows (load parse_number raw))
       (map (fun r =>
               mkRow (Year r)
                     (map (to_numeric parse_number)
                          (select (map (fun c => negb (String.prefix "Unnamed" c))
                                       (columns raw))
                                  (cells r))))
            (rows raw))
  /\ Permutation (Years (load parse_number raw)) (Years raw)
  /\ List.length (rows (load parse_number raw)) = List.length (rows raw)
  /\ (NoDup (Years (load parse_number raw)) <-> NoDup (Years raw)).
Proof.
  split; [apply sort_rows_sorted|].
  split.
  { unfold load, sort_values, coerce_numeric, strip_columns, drop_unnamed.
    simpl. rewrite sort_rows_perm, map_map. reflexivity. }
  pose proof (Years_load parse_number raw) as HP.
  split; [exact HP|]. split.
  - apply Permutation_length in HP. unfold Years in HP.
    now rewrite !List.length_map in HP.
  - split; apply Permutation_NoDup; [exact HP | now symmetry].
Qed.

(** C6 as stated fails on a source with a repeated year: both 2015 rows
    are kept. *)
Lemma C6_repeated_year_kept :
  ~ (StronglySorted year_order (rows (load parse_decimal raw_repeated_year))
     /\ NoDup (Years (load parse_decimal raw_repeated_year))).
Proof.
  intros [_ H].
  assert (E : Years (load parse_decimal raw_repeated_year)
              = [Some 2015; Some 2015; Some 2020]) by reflexivity.
  rewrite E in H. inversion H as [|y l Hnotin _]. apply Hnotin. now left.
Qed.

(* ================================================================== *)
(** * More on the loader *)

Lemma rstrip_idem (s : string) : rstrip (rstrip s) = rstrip s.
Proof.
  induction s as [|a s IH]; [reflexivity|]. cbn [rstrip].
  destruct (is_space (String a (rstrip s))) eqn:E; [reflexivity|].
  cbn [rstrip]. now rewrite IH, E.
Qed.

Lemma rstrip_prefix (s : string) : String.prefix (rstrip s) s = true.
Proof.
  induction s as [|a s IH]; [reflexivity|]. cbn [rstrip].
  destruct (is_space (String a (rstrip s))); [reflexivity|].
  simpl. destruct (ascii_dec a a); [exact IH | contradiction].
Qed.

Lemma rstrip_length (s : string) : (String.length (rstrip s) <= String.length s)%nat.
Proof.
  induction s as [|a s IH]; [apply le_n|]. cbn [rstrip].
  destruct (is_space (String a (rstrip s))); simpl; lia.
Qed.

Lemma prefix_head_space (p u : string) :
  String.prefix p u = true -> head_space p = true -> head_space u = true.
Proof.
  destruct p as [|a p1]; [discriminate 2|].
  destruct u as [|a' u1]; [discriminate 1|]. simpl String.prefix.
  destruct (ascii_dec a a') as [<-|]; [|discriminate 1].
  cbn [head_space]. destruct (is_space (String a EmptyString)); [reflexivity|].
  cbn [orb]. destruct p1 as [|b p2]; [discriminate 2|].
  destruct u1 as [|b' u2]; [discriminate 1|]. simpl String.prefix.
  destruct (ascii_dec b b') as [<-|]; [|discriminate 1].
  destruct (is_space (String a (String b EmptyString))); [reflexivity|].
  cbn [orb]. destruct p2 as [|c p3]; [discriminate 2|].
  destruct u2 as [|c' u3]; [discriminate 1|]. simpl String.prefix.
  destruct (ascii_dec c c') as [<-|]; [|discriminate 1]. intros _ H. exact H.
Qed.

Lemma lstrip_clean_fuel (n : nat) (s : string) :
  (String.length s <= n)%nat -> head_space (lstrip s) = false.
Proof.
  revert s. induction n as [|n IH]; intros s Hn.
  - destruct s; [reflexivity | simpl in Hn; lia].
  - destruct s as [|a s1]; [reflexivity|]. simpl in Hn. cbn [lstrip].
    destruct (is_space (String a EmptyString)) eqn:E1; [apply IH; lia|].
    destruct s1 as [|b s2]; [cbn [head_space]; now rewrite E1|]. simpl in Hn.
    destruct (is_space (String a (String b EmptyString))) eqn:E2; [apply IH; lia|].
    destruct s2 as [|c s3]; [cbn [head_space]; now rewrite E1, E2|]. simpl in Hn.
    destruct (is_space (String a (String b (String c EmptyString)))) eqn:E3;
      [apply IH; lia|].
    cbn [head_space]. now rewrite E1, E2, E3.
Qed.

Lemma lstrip_clean (s : string) : head_space (lstrip s) = false.
Proof. apply (lstrip_clean_fuel (String.length s)), le_n. Qed.

Lemma clean_lstrip (u : string) : head_space u = false -> lstrip u = u.
Proof.
  destruct u as [|a u1]; [reflexivity|]. cbn [head_space lstrip].
  destruct (is_space (String a EmptyString)); [discriminate|]. cbn [orb].
  destruct u1 as [|b u2]; [reflexivity|].
  destruct (is_space (String a (String b EmptyString))); [discriminate|]. cbn [orb].
  destruct u2 as [|c u3]; [reflexivity|]. now intros ->.
Qed.

Lemma strip_clean (s : string) : head_space (strip s) = false.
Proof.
  unfold strip. destruct (head_space (rstrip (lstrip s))) eqn:E; [|reflexivity].
  rewrite <- (lstrip_clean s). symmetry.
  exact (prefix_head_space _ _ (rstrip_prefix (lstrip s)) E).
Qed.

Lemma strip_idem (s : string) : strip (strip s) = strip s.
Proof.
  unfold strip at 1. rewrite (clean_lstrip _ (strip_clean s)).
  unfold strip. apply rstrip_idem.
Qed.

Lemma head_space_append (w rest : string) :
  is_space w = true -> head_space (w ++ rest)%string = true.
Proof.
  destruct w as [|a [|b [|c [|d w]]]]; try discriminate; intros H;
    cbn [String.append head_space].
  - now rewrite H.
  - rewrite H. rewrite orb_true_l. apply orb_true_r.
  - rewrite H. rewrite !orb_true_r. reflexivity.
Qed.

Ltac split_tests H :=
  repeat match type of H with
         | (_ || _) = true => apply orb_true_iff in H; destruct H as [H|H]
         | (_ && _) = true =>
             let H' := fresh H in
             apply andb_true_iff in H; destruct H as [H H']; split_tests H'
         | (_ =? _)%N = true => apply N.eqb_eq in H
         | (_ <=? _)%N = true => apply N.leb_le in H
         end.

Lemma is_space1_high (a : ascii) :
  (128 <= byte a)%N -> is_space (String a EmptyString) = false.
Proof.
  intros H. unfold is_space.
  destruct (N.leb_spec (byte a) 13), (N.leb_spec (byte a) 32);
    rewrite ?andb_false_r; try reflexivity; lia.
Qed.

Lemma is_space2_lead (a b : ascii) :
  byte a <> 194%N -> is_space (String a (String b EmptyString)) = false.
Proof.
  intros H. unfold is_space. now apply N.eqb_neq in H as ->.
Qed.

Lemma is_space2_tail (a b : ascii) :
  is_space (String a (String b EmptyString)) = true -> (128 <= byte b)%N.
Proof. unfold is_space. intros H. split_tests H; lia. Qed.

Lemma is_space3_tail (a b c : ascii) :
  is_space (String a (String b (String c EmptyString))) = true ->
  (128 <= byte b)%N /\ byte b <> 194%N /\ (128 <= byte c)%N.
Proof. unfold is_space. intros H. split_tests H; lia. Qed.

Lemma rstrip_space (w : string) : is_space w = true -> rstrip w = EmptyString.
Proof.
  destruct w as [|a [|b [|c [|d w]]]]; try discriminate; intros H.
  - cbn [rstrip]. now rewrite H.
  - pose proof (is_space2_tail _ _ H) as Hb.
    cbn [rstrip]. rewrite (is_space1_high _ Hb), H. reflexivity.
  - destruct (is_space3_tail _ _ _ H) as (Hb & Hb' & Hc).
    cbn [rstrip]. rewrite (is_space1_high _ Hc), (is_space2_lead _ _ Hb'), H.
    reflexivity.
Qed.

Lemma rstrip_append_space (init w : string) :
  is_space w = true -> rstrip (init ++ w)%string = rstrip init.
Proof.
  intros H. induction init as [|a init IH]; simpl String.append.
  - now apply rstrip_space.
  - cbn [rstrip]. now rewrite IH.
Qed.

Lemma length_append (s t : string) :
  String.length (s ++ t)%string = (String.length s + String.length t)%nat.
Proof. induction s as [|a s IH]; simpl; [reflexivity | now rewrite IH]. Qed.

(** A stripped text neither starts nor ends with a whitespace
    character. *)
Lemma strip_no_space (s w rest : string) :
  is_space w = true ->
  strip s <> (w ++ rest)%string /\ strip s <> (rest ++ w)%string.
Proof.
  intros Hw. split; intros E.
  - pose proof (strip_clean s) as C. rewrite E in C.
    now rewrite (head_space_append _ _ Hw) in C.
  - assert (R : rstrip (strip s) = strip s) by (unfold strip; apply rstrip_idem).
    rewrite E, (rstrip_append_space _ _ Hw) in R.
    pose proof (rstrip_length rest) as L. rewrite R, length_append in L.
    destruct w; [discriminate Hw | simpl in L; lia].
Qed.

Lemma select_length {A B : Type} (m : list bool) (l1 : list A) (l2 : list B) :
  List.length l1 = List.length l2 ->
  List.length (select m l1) = List.length (select m l2).
Proof.
  revert l1 l2. induction m as [|b m IH]; intros [|x l1] [|y l2] H; simpl in *;
    try reflexivity; try discriminate.
  injection H as H. destruct b; simpl; now rewrite (IH l1 l2 H).
Qed.

(** X1.  The labels of the loaded dataset are the labels of the source
    that do not start with Unnamed, in the order of the file, each
    stripped.  So no label of the loaded dataset starts or ends with a
    whitespace character, of the ASCII range or beyond it, and stripping
    it again changes nothing. *)
Theorem X1_loaded_columns (parse_number : string -> option float)
        (raw : Frame pyobj) :
  columns (load parse_number raw)
  = map strip (filter (fun c => negb (String.prefix "Unnamed" c)) (columns raw))
  /\ forall c, In c (columns (load parse_number raw)) ->
       strip c = c
       /\ (forall w rest, is_space w = true -> c <> (w ++ rest)%string)
       /\ (forall w init, is_space w = true -> c <> (init ++ w)%string).
Proof.
  assert (E : columns (load parse_number raw)
              = map strip (filter (fun c => negb (String.prefix "Unnamed" c))
                                  (columns raw))).
  { unfold load, sort_values, coerce_numeric, num_cols, strip_columns, drop_unnamed.
    simpl. now rewrite select_filter. }
  split; [exact E|].
  intros c Hc. rewrite E in Hc. apply in_map_iff in Hc.
  destruct Hc as (c0 & <- & _). split; [apply strip_idem|].
  split; intros w x Hw;
    [exact (proj1 (strip_no_space c0 w x Hw)) | exact (proj2 (strip_no_space c0 w x Hw))].
Qed.

(** X2.  The loader keeps the table rectangular: when every line of
    the source has one cell per column, every row of the loaded dataset
    has one cell per remaining column. *)
Theorem X2_load_aligned (parse_number : string -> option float)
        (raw : Frame pyobj) :
  aligned raw -> aligned (load parse_number raw).
Proof.
  unfold aligned. intros H.
  unfold load, sort_values. simpl rows. simpl columns.
  eapply Permutation_Forall; [symmetry; apply sort_rows_perm|].
  simpl. rewrite !Forall_map. eapply Forall_impl; [|exact H].
  intros r Hr. simpl. rewrite !List.length_map. now apply select_length.
Qed.

Lemma X2_load_aligned_witness : aligned (load parse_decimal raw_repeated_year).
Proof.
  apply (X2_load_aligned parse_decimal raw_repeated_year).
  repeat constructor.
Defined.

Lemma year_order_antisym {A : Type} (r1 r2 : Row A) :
  year_order r1 r2 -> year_order r2 r1 -> Year r1 = Year r2.
Proof.
  unfold year_order. destruct (Year r1), (Year r2); try easy.
  intros. f_equal. lia.
Qed.

(** Two ascending arrangements of the same rows are the same list when
    no year occurs twice. *)
Lemma sorted_rows_unique {A : Type} (l1 l2 : list (Row A)) :
  StronglySorted year_order l1 -> StronglySorted year_order l2 ->
  Permutation l1 l2 -> NoDup (map Year l1) -> l1 = l2.
Proof.
  revert l2. induction l1 as [|h1 t1 IH]; intros l2 S1 S2 HP HN.
  - apply Permutation_nil in HP. now subst.
  - destruct l2 as [|h2 t2];
      [apply Permutation_sym, Permutation_nil in HP; discriminate|].
    apply StronglySorted_inv in S1. destruct S1 as [S1 F1].
    apply StronglySorted_inv in S2. destruct S2 as [S2 F2].
    simpl in HN. apply NoDup_cons_iff in HN. destruct HN as [Hnotin HN].
    assert (E : h1 = h2).
    { assert (In2 : In h2 (h1 :: t1))
        by (eapply Permutation_in; [symmetry; exact HP | now left]).
      destruct In2 as [E | In2]; [exact E|].
      assert (In1 : In h1 (h2 :: t2))
        by (eapply Permutation_in; [exact HP | now left]).
      destruct In1 as [E | In1]; [now symmetry|].
      rewrite Forall_forall in F1, F2.
      exfalso. apply Hnotin.
      rewrite (year_order_antisym h1 h2 (F1 _ In2) (F2 _ In1)).
      now apply in_map. }
    subst h2. f_equal. apply IH; auto.
    now apply Permutation_cons_inv in HP.
Qed.

(** X3.  The order of the lines of the source does not matter: two
    sources with the same header and the same lines in any order, no
    year occurring twice, load to the same dataset. *)
Theorem X3_load_order_insensitive (parse_number : string -> option float)
        (raw1 raw2 : Frame pyobj) :
  columns raw1 = columns raw2 ->
  Permutation (rows raw1) (rows raw2) ->
  NoDup (Years raw1) ->
  load parse_number raw1 = load parse_number raw2.
Proof.
  intros Hc HP HN.
  unfold load, sort_values, coerce_numeric, num_cols, strip_columns, drop_unnamed.
  simpl. rewrite <- Hc. f_equal.
  apply sorted_rows_unique; try apply sort_rows_sorted.
  - rewrite sort_rows_perm, sort_rows_perm. now do 2 apply Permutation_map.
  - eapply Permutation_NoDup; [|exact HN].
    symmetry. etransitivity; [apply Permutation_map, sort_rows_perm|].
    unfold Years. rewrite !map_map. reflexivity.
Qed.

Lemma X3_load_order_insensitive_witness :
  load parse_decimal raw_sample_reversed = load parse_decimal raw_sample.
Proof.
  apply (X3_load_order_insensitive parse_decimal raw_sample_reversed raw_sample).
  - reflexivity.
  - apply perm_swap.
  - repeat constructor; simpl; intuition discriminate.
Defined.

(* ================================================================== *)
(** * More on the filter and the year bounds *)

Lemma min_year_least (df : DataFrame) (lo : Z) :
  min_year df = Ok lo ->
  In (Some lo) (Years df) /\ forall w, In (Some w) (Years df) -> lo <= w.
Proof.
  unfold min_year, series_min. intros H.
  pose proof (fold_skipna_min (Years df) None) as Hmin.
  destruct (fold_left (skipna Z.min) (Years df) None) as [m|]; [|discriminate].
  injection H as ->. destruct Hmin as ([C|Hin] & _ & Hle); [discriminate|].
  now split.
Qed.

Lemma max_year_greatest (df : DataFrame) (hi : Z) :
  max_year df = Ok hi ->
  In (Some hi) (Years df) /\ forall w, In (Some w) (Years df) -> w <= hi.
Proof.
  unfold max_year, series_max. intros H.
  pose proof (fold_skipna_max (Years df) None) as Hmax.
  destruct (fold_left (skipna Z.max) (Years df) None) as [m|]; [|discriminate].
  injection H as ->. destruct Hmax as ([C|Hin] & _ & Hle); [discriminate|].
  now split.
Qed.

Lemma in_range_spec (start_year end_year : Z) (r : Row float) :
  in_range start_year end_year r = true
  <-> exists y, Year r = Some y /\ start_year <= y <= end_year.
Proof.
  unfold in_range. destruct (Year r) as [v|].
  - rewrite andb_true_iff, !Z.leb_le. split.
    + intros H. now exists v.
    + intros (y & [= ->] & H). exact H.
  - split; [discriminate | intros (y & C & _); discriminate].
Qed.

Lemma year_in_range_kept (df : DataFrame) (start_year end_year y : Z) :
  start_year <= y <= end_year -> In (Some y) (Years df) ->
  validate_and_filter df start_year end_year
  = inr (filtered_df df start_year end_year).
Proof.
  intros Hy Hin. unfold validate_and_filter.
  destruct (Z.gtb_spec start_year end_year); [lia|].
  unfold empty. rewrite rows_filtered_df.
  unfold Years in Hin. apply in_map_iff in Hin. destruct Hin as (r & Hr & Hin).
  assert (In r (filter (in_range start_year end_year) (rows df))) as Hf.
  { apply filter_In. split; [exact Hin|]. apply in_range_spec. now exists y. }
  destruct (filter (in_range start_year end_year) (rows df)); [destruct Hf | reflexivity].
Qed.

Lemma filter_twice {A : Type} (p q : A -> bool) (l : list A) :
  filter q (filter p l) = filter (fun x => p x && q x) l.
Proof.
  induction l as [|x l IH]; simpl; [reflexivity|].
  destruct (p x); simpl; [destruct (q x); now rewrite IH | exact IH].
Qed.

(** X4.  Filtering a filtered view is filtering once by the overlap of
    the two ranges; in particular filtering again by the same range
    changes nothing. *)
Theorem X4_filter_composes (df : DataFrame) (s1 e1 s2 e2 : Z) :
  filtered_df (filtered_df df s1 e1) s2 e2
  = filtered_df df (Z.max s1 s2) (Z.min e1 e2)
  /\ filtered_df (filtered_df df s1 e1) s1 e1 = filtered_df df s1 e1.
Proof.
  assert (G : forall a b c d,
             filtered_df (filtered_df df a b) c d
             = mkFrame (columns df)
                       (filter (fun r => in_range a b r && in_range c d r) (rows df))).
  { intros. rewrite (filtered_df_eq (filtered_df df a b)).
    rewrite rows_filtered_df, filter_twice. reflexivity. }
  split; rewrite G, filtered_df_eq; f_equal; apply filter_ext; intros r;
    unfold in_range; destruct (Year r) as [y|]; try reflexivity.
  - destruct (Z.leb_spec s1 y), (Z.leb_spec y e1), (Z.leb_spec s2 y),
      (Z.leb_spec y e2), (Z.leb_spec (Z.max s1 s2) y),
      (Z.leb_spec y (Z.min e1 e2)); simpl; try reflexivity; lia.
  - now rewrite andb_diag.
Qed.

Lemma StronglySorted_filter {A : Type} (R : A -> A -> Prop) (p : A -> bool)
      (l : list A) :
  StronglySorted R l -> StronglySorted R (filter p l).
Proof.
  induction 1 as [|x l HS IH HF]; simpl; [constructor|].
  destruct (p x); [|exact IH]. constructor; [exact IH|].
  rewrite Forall_forall in *. intros y Hy. apply HF.
  now apply filter_In in Hy.
Qed.

(** X5.  The filtered view of a loaded dataset is in ascending order of
    Year, and each of its rows has a Year, which lies between
    start_year and end_year: a row without a Year is never charted. *)
Theorem X5_view_of_loaded (parse_number : string -> option float)
        (raw : Frame pyobj) (start_year end_year : Z) :
  StronglySorted year_order
                 (rows (filtered_df (load parse_number raw) start_year end_year))
  /\ Forall (fun r => exists y, Year r = Some y /\ start_year <= y <= end_year)
            (rows (filtered_df (load parse_number raw) start_year end_year)).
Proof.
  rewrite rows_filtered_df. split.
  - apply StronglySorted_filter, sort_rows_sorted.
  - apply Forall_forall. intros r Hr. apply filter_In in Hr.
    now apply in_range_spec.
Qed.

(** X6.  Filtering by the full slider range, from [min_year] to
    [max_year], keeps exactly the rows that have a Year; on a dataset
    where every row has one it returns the dataset itself. *)
Theorem X6_full_range (df : DataFrame) (lo hi : Z) :
  min_year df = Ok lo -> max_year df = Ok hi ->
  rows (filtered_df df lo hi) = filter has_year (rows df)
  /\ (forallb has_year (rows df) = true -> filtered_df df lo hi = df).
Proof.
  intros Hlo Hhi.
  destruct (min_year_least _ _ Hlo) as [_ Hle].
  destruct (max_year_greatest _ _ Hhi) as [_ Hge].
  assert (E : filter (in_range lo hi) (rows df) = filter has_year (rows df)).
  { apply filter_ext_in. intros r Hr. unfold in_range, has_year.
    destruct (Year r) as [y|] eqn:Ey; [|reflexivity].
    assert (In (Some y) (Years df))
      by (unfold Years; rewrite <- Ey; now apply in_map).
    apply andb_true_intro. split; apply Z.leb_le; auto. }
  split; [now rewrite rows_filtered_df|].
  intros Hall. rewrite filtered_df_eq, E. destruct df as [cols rs]. simpl in *.
  f_equal. clear -Hall. induction rs as [|r rs IH]; simpl in *; [reflexivity|].
  apply andb_true_iff in Hall. destruct Hall as [Hr Hall].
  rewrite Hr. f_equal. now apply IH.
Qed.

Lemma X6_full_range_witness :
  rows (filtered_df ca_sample 2015 2020) = filter has_year (rows ca_sample)
  /\ (forallb has_year (rows ca_sample) = true
      -> filtered_df ca_sample 2015 2020 = ca_sample).
Proof.
  apply (X6_full_range ca_sample 2015 2020); reflexivity.
Defined.

(** X7.  A range that lies wholly above the greatest Year of the
    dataset, or wholly below the least, selects nothing: the outcome is
    the EmptyRangeError message. *)
Theorem X7_range_outside_bounds (df : DataFrame) (start_year end_year lo hi : Z) :
  min_year df = Ok lo -> max_year df = Ok hi ->
  start_year <= end_year ->
  hi < start_year \/ end_year < lo ->
  validate_and_filter df start_year end_year = inl EmptyRangeError.
Proof.
  intros Hlo Hhi Hle Hout.
  destruct (min_year_least _ _ Hlo) as [_ Hmin].
  destruct (max_year_greatest _ _ Hhi) as [_ Hmax].
  unfold validate_and_filter.
  destruct (Z.gtb_spec start_year end_year); [lia|].
  unfold empty. rewrite rows_filtered_df.
  destruct (filter (in_range start_year end_year) (rows df)) as [|r l] eqn:E;
    [reflexivity|].
  exfalso.
  assert (Hr : In r (filter (in_range start_year end_year) (rows df)))
    by (rewrite E; now left).
  apply filter_In in Hr. destruct Hr as [Hin Hr].
  apply in_range_spec in Hr. destruct Hr as (y & Hy & Hrange).
  assert (HY : In (Some y) (Years df))
    by (unfold Years; rewrite <- Hy; now apply in_map).
  specialize (Hmin _ HY). specialize (Hmax _ HY). lia.
Qed.

Lemma X7_range_outside_bounds_witness :
  validate_and_filter ca_sample 2021 2030 = inl EmptyRangeError.
Proof.
  apply (X7_range_outside_bounds ca_sample 2021 2030 2015 2020);
    [reflexivity | reflexivity | lia | lia].
Defined.

(** X8.  The sliders' starting values: the end slider starts at
    [max_year] and the start slider at max(min_year, 2017), which is
    never below [min_year] and is within the slider's range exactly
    when the data reach 2017.  When they do, the starting values pass
    both checks of lines 50-57 and the end year is a Year of the
    dataset. *)
Theorem X8_slider_defaults (df : DataFrame) (lo hi : Z) :
  min_year df = Ok lo -> max_year df = Ok hi ->
  default_start df = Ok (Z.max lo 2017)
  /\ default_end df = Ok hi
  /\ lo <= hi
  /\ lo <= Z.max lo 2017
  /\ (Z.max lo 2017 <= hi <-> 2017 <= hi)
  /\ (2017 <= hi ->
      validate_and_filter df (Z.max lo 2017) hi
      = inr (filtered_df df (Z.max lo 2017) hi)
      /\ In (Some hi) (Years df)).
Proof.
  intros Hlo Hhi.
  destruct (min_year_least _ _ Hlo) as [_ Hmin].
  destruct (max_year_greatest _ _ Hhi) as [Hin _].
  pose proof (Hmin _ Hin) as Hlohi.
  unfold default_start, default_end. rewrite Hlo. simpl.
  repeat split; try assumption; try lia.
  apply (year_in_range_kept df _ _ hi); [lia | exact Hin].
Qed.

Lemma X8_slider_defaults_witness :
  default_start ca_sample = Ok 2017
  /\ validate_and_filter ca_sample 2017 2020 = inr (filtered_df ca_sample 2017 2020).
Proof.
  destruct (X8_slider_defaults ca_sample 2015 2020 eq_refl eq_refl)
    as (Hs & _ & _ & _ & _ & H).
  split; [exact Hs|]. apply H. lia.
Defined.

Lemma at_year_spec (y : Z) (r : Row float) :
  at_year y r = true <-> Year r = Some y.
Proof.
  unfold at_year, year_eq. destruct (Year r) as [v|].
  - rewrite Z.eqb_eq. split; [now intros -> | now intros [= ->]].
  - split; discriminate.
Qed.

(** X9.  On a dataset in ascending order of Year, with start <= end
    and the start year present, the row the change metric reads its
    initial value from is the first row of the filtered view. *)
Theorem X9_initial_row_heads_view (df : DataFrame) (start_year end_year : Z)
        (r : Row float) :
  StronglySorted year_order (rows df) ->
  start_year <= end_year ->
  find (at_year start_year) (rows df) = Some r ->
  hd_error (rows (filtered_df df start_year end_year)) = Some r.
Proof.
  intros HS Hle Hfind. rewrite rows_filtered_df.
  apply find_filter in Hfind. destruct Hfind as [t Ht].
  assert (E : filter (at_year start_year)
                     (filter (in_range start_year end_year) (rows df))
              = r :: t).
  { rewrite filter_twice, <- Ht. apply filter_ext. intros x.
    destruct (at_year start_year x) eqn:Ex; [|apply andb_false_r].
    apply at_year_spec in Ex. rewrite andb_true_r.
    apply in_range_spec. exists start_year. split; [exact Ex | lia]. }
  pose proof (StronglySorted_filter _ (in_range start_year end_year) _ HS) as HF.
  destruct (filter (in_range start_year end_year) (rows df)) as [|h F] eqn:EF;
    [discriminate|].
  simpl. f_equal.
  assert (Hh : at_year start_year h = true).
  { assert (Hin : In h (filter (in_range start_year end_year) (rows df)))
      by (rewrite EF; now left).
    apply filter_In in Hin. destruct Hin as [_ Hin].
    apply in_range_spec in Hin. destruct Hin as (yh & Hyh & Hrange).
    assert (Hr : In r (h :: F)).
    { assert (In r (filter (at_year start_year) (h :: F)))
        by (rewrite E; now left).
      now apply filter_In in H. }
    assert (Yr : Year r = Some start_year).
    { assert (In r (filter (at_year start_year) (rows df)))
        by (rewrite Ht; now left).
      apply filter_In in H. now apply at_year_spec. }
    apply at_year_spec. rewrite Hyh. f_equal.
    destruct Hr as [<- | Hr]; [congruence|].
    apply StronglySorted_inv in HF. destruct HF as [_ HF].
    rewrite Forall_forall in HF. specialize (HF _ Hr).
    unfold year_order in HF. rewrite Hyh, Yr in HF. lia. }
  simpl in E. rewrite Hh in E. now injection E.
Qed.

Lemma X9_initial_row_heads_view_witness :
  hd_error (rows (filtered_df ca_sample 2015 2020))
  = Some (mkRow (Some 2015) [F 39144818; F 2200000]).
Proof.
  apply (X9_initial_row_heads_view ca_sample 2015 2020).
  - apply SSorted_cons; [apply SSorted_cons; [apply SSorted_nil | apply Forall_nil]|].
    apply Forall_cons; [|apply Forall_nil]. unfold year_order. simpl. lia.
  - lia.
  - reflexivity.
Defined.

(* ================================================================== *)
(** * The widgets' defaults *)

Lemma index_of_nth (c : string) (l : list string) :
  existsb (String.eqb c) l = true ->
  exists i, index_of c l = Some i /\ nth_error l i = Some c.
Proof.
  induction l as [|h t IH]; simpl; [discriminate|].
  destruct (String.eqb_spec c h) as [->|Hne]; simpl.
  - intros _. now exists O.
  - intros H. destruct (IH H) as (i & Hi & Hn). exists (S i). now rewrite Hi.
Qed.

Lemma existsb_selectable (df : DataFrame) :
  existsb (String.eqb "Total") (selectable_single df) = has_column df "Total".
Proof.
  unfold selectable_single, has_column.
  induction (columns df) as [|h t IH]; [reflexivity|].
  cbn [filter existsb].
  destruct (String.eqb_spec h "Year") as [->|Hne]; cbn [negb existsb].
  - rewrite IH. reflexivity.
  - now rewrite IH.
Qed.

(** X10.  The population select box always has a valid starting
    position: it points at Total when the dataset has a Total column,
    and is the first position when it has none; line 44 never raises. *)
Theorem X10_default_population (df : DataFrame) :
  exists i,
    default_idx df = Ok i
    /\ (has_column df "Total" = true ->
        nth_error (selectable_single df) i = Some "Total")
    /\ (has_column df "Total" = false -> i = O).
Proof.
  unfold default_idx, list_index. rewrite existsb_selectable.
  destruct (has_column df "Total") eqn:HT.
  - rewrite <- existsb_selectable in HT.
    destruct (index_of_nth _ _ HT) as (i & Hi & Hn).
    exists i. rewrite Hi. split; [reflexivity|]. split; [now intros _ | discriminate].
  - exists O. split; [reflexivity|]. split; [discriminate | reflexivity].
Qed.

Lemma compare_options_spec (df : DataFrame) (c : string) :
  In c (compare_options df)
  <-> In c (columns df) /\ c <> "Year" /\ c <> "Total".
Proof.
  unfold compare_options. rewrite filter_In, negb_true_iff, orb_false_iff.
  rewrite !String.eqb_neq. tauto.
Qed.

(** X11.  The comparison select box offers the columns other than Year
    and Total.  Its preselection lies within what it offers: it is the
    target when the target is offered, otherwise the first offer, and
    it is empty only when nothing is offered. *)
Theorem X11_compare_defaults (df : DataFrame) (target : string) :
  (forall c, In c (compare_options df)
             <-> In c (columns df) /\ c <> "Year" /\ c <> "Total")
  /\ (forall c, In c (default_sel df target) -> In c (compare_options df))
  /\ (In target (compare_options df) <-> default_sel df target = [target])
  /\ (~ In target (compare_options df) ->
      default_sel df target = firstn 1 (compare_options df))
  /\ (default_sel df target = [] <-> compare_options df = []).
Proof.
  assert (Hex : existsb (String.eqb target) (compare_options df) = true
                <-> In target (compare_options df)).
  { rewrite existsb_exists. split.
    - intros (x & Hx & E). apply String.eqb_eq in E. now subst.
    - intros H. exists target. split; [exact H | apply String.eqb_refl]. }
  split; [apply compare_options_spec|]. unfold default_sel.
  destruct (existsb (String.eqb target) (compare_options df)) eqn:E.
  - assert (Hin : In target (compare_options df)) by now apply Hex.
    split; [intros c [<- | []]; exact Hin|].
    split; [split; [reflexivity | intros _; exact Hin]|].
    split; [intros C; destruct (C Hin)|].
    split; [discriminate | intros C; rewrite C in Hin; destruct Hin].
  - assert (Hnin : ~ In target (compare_options df))
      by (intros C; apply Hex in C; discriminate).
    clear E Hex. destruct (compare_options df) as [|h t].
    + split; [intros c []|].
      split; [split; [intros [] | discriminate]|].
      split; [reflexivity|]. split; reflexivity.
    + split; [intros c [<- | []]; now left|].
      split; [split; [intros C; destruct (Hnin C)
                     | intros [= ->]; exfalso; apply Hnin; now left]|].
      split; [reflexivity|]. split; discriminate.
Qed.

(* ================================================================== *)
(** * The charts and the ways the run can end *)

Lemma absolute_lines_ok (fdf : DataFrame) (sel : list string) :
  (forall c, In c sel -> has_column fdf c = true) ->
  exists ls,
    absolute_lines fdf sel = Ok ls
    /\ map label ls = map Some sel
    /\ Forall (plottable (Years fdf)) ls
    /\ Forall2 (fun c l => exists i, index_of c (columns fdf) = Some i
                                     /\ ydata l = map (cell i) (rows fdf))
               sel ls.
Proof.
  unfold absolute_lines. induction sel as [|c sel IH]; intros H; simpl.
  - exists []. repeat split; constructor.
  - destruct (proj1 (index_of_has_column fdf c) (H c (or_introl eq_refl)))
      as [i Hi].
    destruct IH as (ls & Hls & Hlab & Hplot & Hval);
      [intros z Hz; apply H; now right|].
    rewrite (getitem_index _ _ _ Hi). simpl. rewrite Hls. simpl.
    eexists. split; [reflexivity|]. split; [simpl; now rewrite Hlab|].
    split; constructor; try assumption.
    + unfold plottable, Years. simpl. now rewrite !List.length_map.
    + now exists i.
Qed.

Lemma percent_lines_ok (fdf : DataFrame) (sel : list string) (t : nat) :
  index_of "Total" (columns fdf) = Some t ->
  (forall c, In c sel -> has_column fdf c = true) ->
  exists ps,
    percent_lines fdf sel = Ok ps
    /\ map label ps = map Some sel
    /\ Forall (plottable (Years fdf)) ps
    /\ Forall2 (fun c p =>
                  exists i, index_of c (columns fdf) = Some i
                            /\ ydata p
                               = map (fun r => fmul (fdiv (cell i r) (cell t r))
                                                    (float_of_Z 100))
                                     (rows fdf))
               sel ps.
Proof.
  intros Ht.
  unfold percent_lines. induction sel as [|c sel IH]; intros H; simpl.
  - exists []. repeat split; constructor.
  - destruct (proj1 (index_of_has_column fdf c) (H c (or_introl eq_refl)))
      as [i Hi].
    destruct IH as (ps & Hps & Hlab & Hplot & Hval);
      [intros z Hz; apply H; now right|].
    rewrite (pct_series_rows _ _ _ _ Hi Ht). simpl. rewrite Hps. simpl.
    eexists. split; [reflexivity|]. split; [simpl; now rewrite Hlab|].
    split; constructor; try assumption.
    + unfold plottable, Years. simpl. now rewrite !List.length_map.
    + now exists i.
Qed.

(** X12.  With a Total column and a non-empty selection among the
    columns, the second tab draws two charts and ends normally.  The
    first is the absolute comparison: one line per selected column, in
    the order of the selection, labelled with the column and holding
    the column's values row by row.  The second is the percentage
    comparison: one line per selected column, in the same order and with
    the same labels, holding row by row the column's value divided by
    the Total of the row, times 100.0.  Each line has as many points as
    the view has Years. *)
Theorem X12_comparison_charts (fdf : DataFrame) (compare_targets : list string) :
  has_column fdf "Total" = true ->
  compare_targets <> [] ->
  (forall c, In c compare_targets -> has_column fdf c = true) ->
  exists ls ps t,
    tab2 fdf compare_targets
    = ([st_pyplot (Years fdf) ls; st_pyplot (Years fdf) ps], Ok tt)
    /\ map label ls = map Some compare_targets
    /\ map label ps = map Some compare_targets
    /\ Forall (plottable (Years fdf)) ls
    /\ Forall (plottable (Years fdf)) ps
    /\ index_of "Total" (columns fdf) = Some t
    /\ Forall2 (fun c l => exists i, index_of c (columns fdf) = Some i
                                     /\ ydata l = map (cell i) (rows fdf))
               compare_targets ls
    /\ Forall2 (fun c p =>
                  exists i, index_of c (columns fdf) = Some i
                            /\ ydata p
                               = map (fun r => fmul (fdiv (cell i r) (cell t r))
                                                    (float_of_Z 100))
                                     (rows fdf))
               compare_targets ps.
Proof.
  intros HT Hne Hall.
  destruct (proj1 (index_of_has_column fdf "Total") HT) as [t Ht].
  destruct (absolute_lines_ok fdf compare_targets Hall)
    as (ls & Hls & Lls & Pls & Vls).
  destruct (percent_lines_ok fdf compare_targets t Ht Hall)
    as (ps & Hps & Lps & Pps & Vps).
  exists ls, ps, t. split; [|repeat split; assumption].
  unfold tab2. rewrite Hls, HT, Hps.
  destruct compare_targets; [contradiction | reflexivity].
Qed.

Lemma X12_comparison_charts_witness :
  exists ls ps t,
    tab2 ca_sample ["Black"]
    = ([st_pyplot (Years ca_sample) ls; st_pyplot (Years ca_sample) ps], Ok tt)
    /\ map label ls = map Some ["Black"]
    /\ map label ps = map Some ["Black"]
    /\ Forall (plottable (Years ca_sample)) ls
    /\ Forall (plottable (Years ca_sample)) ps
    /\ index_of "Total" (columns ca_sample) = Some t
    /\ Forall2 (fun c l => exists i, index_of c (columns ca_sample) = Some i
                                     /\ ydata l = map (cell i) (rows ca_sample))
               ["Black"] ls
    /\ Forall2 (fun c p =>
                  exists i, index_of c (columns ca_sample) = Some i
                            /\ ydata p
                               = map (fun r => fmul (fdiv (cell i r) (cell t r))
                                                    (float_of_Z 100))
                                     (rows ca_sample))
               ["Black"] ps.
Proof.
  apply (X12_comparison_charts ca_sample ["Black"]).
  - reflexivity.
  - discriminate.
  - intros c [<- | []]. reflexivity.
Defined.

Lemma tab2_ok (fdf : DataFrame) (sel : list string) :
  (forall c, In c sel -> has_column fdf c = true) ->
  exists out, tab2 fdf sel = (out, Ok tt).
Proof.
  intros Hall. destruct sel as [|c sel]; [now eexists|].
  destruct (has_column fdf "Total") eqn:HT.
  - destruct (proj1 (index_of_has_column fdf "Total") HT) as [t Ht].
    destruct (absolute_lines_ok fdf (c :: sel) Hall) as (ls & Hls & _).
    destruct (percent_lines_ok fdf (c :: sel) t Ht Hall) as (ps & Hps & _).
    unfold tab2. rewrite Hls, HT, Hps. now eexists.
  - destruct (absolute_lines_ok fdf (c :: sel) Hall) as (ls & Hls & _).
    unfold tab2. rewrite Hls, HT. now eexists.
Qed.

Lemma py_int_raises (x : float) (ex : exception) :
  py_int x = Raise ex -> ex = ValueError \/ ex = OverflowError.
Proof. destruct x; simpl; intros [= <-]; auto. Qed.

Lemma int_truediv_raises (a b : Z) (ex : exception) :
  b <> 0 -> int_truediv a b = Raise ex -> ex = OverflowError.
Proof.
  intros Hb. unfold int_truediv.
  destruct (Z.eqb_spec b 0); [contradiction|].
  destruct (a =? 0); [discriminate|].
  destruct (fdiv (exact_of_Z a) (exact_of_Z b)); intros [= <-]; reflexivity.
Qed.

Lemma pct_raises (initial final : Z) (ex : exception) :
  pct initial final = Raise ex -> ex = OverflowError.
Proof.
  unfold pct. destruct (Z.eqb_spec initial 0) as [E|Hne]; simpl; [discriminate|].
  destruct (int_truediv (final - initial) initial) as [q|ex'] eqn:Eq; simpl;
    [discriminate|].
  intros [= <-]. eapply int_truediv_raises; eauto.
Qed.

Lemma change_metrics_ends (df : DataFrame) (start_year end_year : Z)
      (target : string) (i : nat) :
  index_of target (columns df) = Some i ->
  (exists out, change_metrics df start_year end_year target = (out, Ok tt))
  \/ change_metrics df start_year end_year target = ([], Raise ValueError)
  \/ change_metrics df start_year end_year target = ([], Raise OverflowError).
Proof.
  intros Hi. rewrite (change_metrics_rows _ _ _ _ _ Hi).
  destruct (filter (at_year start_year) (rows df)) as [|r1 l1]; [left; now eexists|].
  destruct (filter (at_year end_year) (rows df)) as [|r2 l2]; [left; now eexists|].
  destruct (py_int (cell i r1)) as [initial|ex] eqn:E1;
    [|destruct (py_int_raises _ _ E1) as [-> | ->]; auto].
  destruct (py_int (cell i r2)) as [final|ex] eqn:E2;
    [|destruct (py_int_raises _ _ E2) as [-> | ->]; auto].
  destruct (pct initial final) as [p|ex] eqn:E3;
    [left; now eexists | rewrite (pct_raises _ _ _ E3); auto].
Qed.

Lemma tab1_rest_ok (fdf : DataFrame) (target : string) :
  has_column fdf target = true ->
  exists out,
    (y <~ lift (getitem fdf target) ;;
     emit (st_pyplot (Years fdf) [mkLine None y]) ;;;
     if has_column fdf "Total" && negb (String.eqb target "Total") then
       p <~ lift (pct_series fdf target) ;;
       emit (st_pyplot (Years fdf) [mkLine None p])
     else if String.eqb target "Total" then emit (st_info TotalNotCharted)
     else ret tt) = (out, Ok tt).
Proof.
  intros Hc. apply index_of_has_column in Hc. destruct Hc as [i Hi].
  rewrite (getitem_index _ _ _ Hi).
  destruct (has_column fdf "Total") eqn:HT.
  - apply index_of_has_column in HT. destruct HT as [t Ht].
    rewrite (pct_series_rows _ _ _ _ Hi Ht).
    destruct (String.eqb target "Total"); now eexists.
  - destruct (String.eqb target "Total"); now eexists.
Qed.

(** X13.  Lines 50-135, for a target and a selection taken among the
    columns as the select boxes give them, the Streamlit and Matplotlib
    calls taken to return: the reads and the arithmetic of these lines
    (mask, lookups, [int], the percent formula, column reads, percent
    of total) either all go through, or the run ends with ValueError or
    OverflowError from lines 74-76, and then none of the messages,
    metrics and charts of these lines has been shown.  None of them
    raises KeyError, IndexError or ZeroDivisionError. *)
Theorem X13_analysis_failures (df : DataFrame) (start_year end_year : Z)
        (target : string) (compare_targets : list string) :
  has_column df target = true ->
  (forall c, In c compare_targets -> has_column df c = true) ->
  (exists out,
     analyze df start_year end_year target compare_targets = (out, Ok tt))
  \/ (analyze df start_year end_year target compare_targets = ([], Raise ValueError)
      /\ change_metrics df start_year end_year target = ([], Raise ValueError))
  \/ (analyze df start_year end_year target compare_targets = ([], Raise OverflowError)
      /\ change_metrics df start_year end_year target = ([], Raise OverflowError)).
Proof.
  intros Ht Hsel.
  unfold analyze, validate_and_filter.
  destruct (start_year >? end_year); [left; now eexists|].
  destruct (empty (filtered_df df start_year end_year)); [left; now eexists|].
  set (fdf := filtered_df df start_year end_year).
  assert (Ht' : has_column fdf target = true) by exact Ht.
  assert (Hsel' : forall c, In c compare_targets -> has_column fdf c = true)
    by exact Hsel.
  destruct (tab2_ok fdf compare_targets Hsel') as [out2 H2].
  destruct (tab1_rest_ok fdf target Ht') as [out1 H1].
  apply index_of_has_column in Ht. destruct Ht as [i Hi].
  unfold tab1. rewrite H2.
  destruct (change_metrics_ends df start_year end_year target i Hi)
    as [[out0 H0] | [H0 | H0]]; rewrite H0.
  - left. unfold bind at 2. rewrite H1. simpl. now eexists.
  - right. left. split; reflexivity.
  - right. right. split; reflexivity.
Qed.

Lemma X13_analysis_failures_witness :
  (exists out, analyze ca_sample 2015 2020 "Black" ["Black"] = (out, Ok tt))
  \/ (analyze ca_sample 2015 2020 "Black" ["Black"] = ([], Raise ValueError)
      /\ change_metrics ca_sample 2015 2020 "Black" = ([], Raise ValueError))
  \/ (analyze ca_sample 2015 2020 "Black" ["Black"] = ([], Raise OverflowError)
      /\ change_metrics ca_sample 2015 2020 "Black" = ([], Raise OverflowError)).
Proof.
  apply (X13_analysis_failures ca_sample 2015 2020 "Black" ["Black"]).
  - reflexivity.
  - intros c [<- | []]. reflexivity.
Defined.

(* ================================================================== *)
(** * Edge cases of the metrics *)

Lemma pct_same (v : Z) : pct v v = Ok (S754_zero (v <? 0)).
Proof.
  unfold pct. destruct (Z.eqb_spec v 0) as [->|Hne]; simpl; [reflexivity|].
  rewrite Z.sub_diag. unfold int_truediv.
  destruct (Z.eqb_spec v 0); [contradiction|]. simpl.
  change (float_of_Z 100) with (S754_finite false 7036874417766400 (-46)).
  simpl. now rewrite xorb_false_r.
Qed.

(** X14.  With the start year equal to the end year and a row of that
    year, the two metrics show the same value and the delta is a zero:
    0.0, or -0.0 when the value is negative. *)
Theorem X14_same_year (df : DataFrame) (y : Z) (target : string) (i : nat)
        (r : Row float) (v : Z) :
  index_of target (columns df) = Some i ->
  find (at_year y) (rows df) = Some r ->
  py_int (cell i r) = Ok v ->
  change_metrics df y y target
  = ([st_metric target y v None;
      st_metric target y v (Some (S754_zero (v <? 0)))], Ok tt).
Proof.
  intros Hi Hfind Hv. apply find_filter in Hfind. destruct Hfind as [t Ht].
  now rewrite (change_metrics_rows _ _ _ _ _ Hi), Ht, Hv, pct_same.
Qed.

Lemma X14_same_year_witness :
  change_metrics ca_sample 2020 2020 "Black"
  = ([st_metric "Black" 2020 2184000 None;
      st_metric "Black" 2020 2184000 (Some (S754_zero false))], Ok tt).
Proof.
  apply (X14_same_year ca_sample 2020 "Black" 1%nat
           (mkRow (Some 2020) [F 39368078; F 2184000]) 2184000);
    reflexivity.
Defined.

(** X15.  A zero Total does not stop the percent-of-total series: at
    such a row the percent is an infinity, with the sign of the value
    against the sign of the zero, when the value is a nonzero number,
    and NaN when the value is itself a zero. *)
Theorem X15_zero_total (fdf : DataFrame) (c : string) (i t k : nat)
        (r : Row float) :
  index_of c (columns fdf) = Some i ->
  index_of "Total" (columns fdf) = Some t ->
  nth_error (rows fdf) k = Some r ->
  is_zero (cell t r) ->
  exists ps p,
    pct_series fdf c = Ok ps
    /\ nth_error ps k = Some p
    /\ (finite_nonzero (cell i r) ->
        p = S754_infinity (xorb (sign_of (cell i r)) (sign_of (cell t r))))
    /\ (is_zero (cell i r) -> p = nan).
Proof.
  intros Hi Ht Hk Hz. do 2 eexists.
  split; [apply (pct_series_rows _ _ _ _ Hi Ht)|].
  split; [rewrite nth_error_map, Hk; reflexivity|].
  change (float_of_Z 100) with (S754_finite false 7036874417766400 (-46)).
  destruct (cell t r) as [st| | |]; try contradiction.
  destruct (cell i r) as [sv|sv| |sv m e]; simpl; split; try contradiction;
    intros _; try reflexivity.
  now rewrite xorb_false_r.
Qed.

Lemma X15_zero_total_witness :
  exists ps p,
    pct_series zero_total_sample "Black" = Ok ps
    /\ nth_error ps 0 = Some p
    /\ (finite_nonzero (cell 1 (mkRow (Some 2015) [F 0; F 2200000])) ->
        p = S754_infinity false)
    /\ (is_zero (cell 1 (mkRow (Some 2015) [F 0; F 2200000])) -> p = nan).
Proof.
  apply (X15_zero_total zero_total_sample "Black" 1%nat 0%nat 0%nat
           (mkRow (Some 2015) [F 0; F 2200000])).
  - reflexivity.
  - reflexivity.
  - reflexivity.
  - exact I.
Defined.

(** X16.  After the metrics the first tab always draws the target's
    values over the Years of the view.  What follows depends on the
    Total column: the percentage chart when there is one and the target
    is another column, the TotalNotCharted note when the target is
    Total, and nothing at all, not even a note, when the dataset has no
    Total column. *)
Theorem X16_first_tab_charts (df fdf : DataFrame) (start_year end_year : Z)
        (target : string) (i : nat) :
  index_of target (columns fdf) = Some i ->
  exists extra,
    tab1 df fdf start_year end_year target
    = bind (change_metrics df start_year end_year target)
           (fun _ => (st_pyplot (Years fdf)
                                [mkLine None (map (cell i) (rows fdf))] :: extra,
                      Ok tt))
    /\ (target = "Total" -> extra = [st_info TotalNotCharted])
    /\ (target <> "Total" -> has_column fdf "Total" = false -> extra = [])
    /\ (target <> "Total" -> has_column fdf "Total" = true ->
        exists ps, pct_series fdf target = Ok ps
                   /\ extra = [st_pyplot (Years fdf) [mkLine None ps]]).
Proof.
  intros Hi. unfold tab1. rewrite (getitem_index _ _ _ Hi).
  destruct (String.eqb_spec target "Total") as [E|Hne].
  - exists [st_info TotalNotCharted]. rewrite andb_false_r.
    split; [reflexivity|]. split; [reflexivity|]. split; intros C; now destruct C.
  - destruct (has_column fdf "Total") eqn:HT.
    + destruct (proj1 (index_of_has_column fdf "Total") HT) as [t Ht].
      rewrite (pct_series_rows _ _ _ _ Hi Ht).
      eexists. split; [reflexivity|]. split; [intros C; now destruct Hne|].
      split; [discriminate|]. intros _ _. eexists. split; reflexivity.
    + exists []. split; [reflexivity|]. split; [intros C; now destruct Hne|].
      split; [reflexivity | discriminate].
Qed.

Lemma X16_first_tab_charts_witness :
  exists extra,
    tab1 no_total_sample no_total_sample 2015 2020 "Black"
    = bind (change_metrics no_total_sample 2015 2020 "Black")
           (fun _ => (st_pyplot (Years no_total_sample)
                                [mkLine None (map (cell 0) (rows no_total_sample))]
                                :: extra,
                      Ok tt))
    /\ extra = [].
Proof.
  destruct (X16_first_tab_charts no_total_sample no_total_sample 2015 2020
              "Black" 0%nat eq_refl) as (extra & H & _ & Hnone & _).
  exists extra. split; [exact H|]. apply Hnone; [discriminate | reflexivity].
Defined.

(** X17.  With the start year equal to the end year the filtered view
    is the rows of that year.  So the EmptyRangeError message is the
    outcome exactly when the year is no Year of the dataset, and past
    that check the change metric never reports YearNotFoundError. *)
Theorem X17_single_year (df : DataFrame) (y : Z) (target : string) (i : nat) :
  index_of target (columns df) = Some i ->
  rows (filtered_df df y y) = filter (at_year y) (rows df)
  /\ (validate_and_filter df y y = inl EmptyRangeError
      <-> ~ In (Some y) (Years df))
  /\ (forall fdf, validate_and_filter df y y = inr fdf ->
      change_metrics df y y target <> ([st_error YearNotFoundError], Ok tt)).
Proof.
  intros Hi.
  assert (E : filter (in_range y y) (rows df) = filter (at_year y) (rows df)).
  { apply filter_ext. intros r. unfold in_range, at_year, year_eq.
    destruct (Year r) as [v|]; [|reflexivity].
    destruct (Z.leb_spec y v), (Z.leb_spec v y), (Z.eqb_spec v y);
      simpl; try reflexivity; lia. }
  split; [now rewrite rows_filtered_df|].
  unfold validate_and_filter.
  destruct (Z.gtb_spec y y); [lia|].
  unfold empty. rewrite rows_filtered_df, E, <- filter_nil_year.
  rewrite (change_metrics_rows _ _ _ _ _ Hi).
  destruct (filter (at_year y) (rows df)) as [|r l].
  - split; [tauto|]. intros fdf C. discriminate C.
  - split; [split; discriminate|]. intros fdf _.
    destruct (py_int (cell i r)) as [v|]; [|discriminate].
    destruct (pct v v); discriminate.
Qed.

Lemma X17_single_year_witness :
  rows (filtered_df ca_sample 2020 2020) = filter (at_year 2020) (rows ca_sample)
  /\ (validate_and_filter ca_sample 2020 2020 = inl EmptyRangeError
      <-> ~ In (Some 2020) (Years ca_sample))
  /\ (forall fdf, validate_and_filter ca_sample 2020 2020 = inr fdf ->
      change_metrics ca_sample 2020 2020 "Black"
      <> ([st_error YearNotFoundError], Ok tt)).
Proof.
  apply (X17_single_year ca_sample 2020 "Black" 1%nat). reflexivity.
Defined.
